(** * darktable, [src/develop/imageop_gui.c]: widgets bound to module parameters

    A shallow embedding of the three binders
    [dt_bauhaus_slider_from_params], [dt_bauhaus_combobox_from_params],
    [dt_bauhaus_toggle_from_params] and of the five change callbacks they
    connect, followed by the properties of the specification that concern
    them.

    - A C [float] is its IEEE-754 binary32 bit pattern (a [Z]); arithmetic
      decodes to [spec_float], computes with the operations of [SpecFloat]
      at precision 24 and re-encodes.  [log10f] and [powf] belong to the
      platform's [libm] and are parameters.
    - The parameter block lives in a heap of 4-byte cells addressed by byte
      offset; every access of this file is to one whole cell.  [int] and
      [gboolean] cells are read as signed 32-bit integers.
    - Calls into the toolkit, the history and the colour picker are appended
      to a log in program order; the toolkit's reads (slider value, selected
      entry, ...) and the platform's [gettext], [log10f] and [powf] are
      fields of the world the program runs in.
    - The [gui_changed] hook of a module is logged when called and may
      rewrite the heap. *)

From Stdlib Require Import ZArith List String Ascii Bool Lia.
From Stdlib Require Import Reals Lra.
From Stdlib Require Import SpecFloat DecimalString.
Import ListNotations.

Local Open Scope string_scope.
Local Open Scope Z_scope.

(** ** The arithmetic a slider needs from [float] *)

(** The operations of lines 126-155 of the source, as an interface: the
    same text of [slider_step_digits] below is read once with IEEE-754
    binary32 and once with exact real arithmetic. *)
Class FloatArith (F : Type) := {
  of_int : Z -> F;            (* (float)n, and the literals 10.f, 1.f, -2.f *)
  to_int : F -> Z;            (* (int)x: truncation towards zero *)
  fsub : F -> F -> F;
  fmul : F -> F -> F;
  fdiv : F -> F -> F;
  fneg : F -> F;
  flt : F -> F -> bool;
  fle : F -> F -> bool;
  fabsf : F -> F;
  fminf : F -> F -> F;
  fmaxf : F -> F -> F;
  floorf : F -> F;
  log10f : F -> F;
  powf : F -> F -> F;
  add_tenth : F -> F;         (* (float)(x + .1), the sum taken in double *)
  gt_half : F -> bool         (* x > .5 *)
}.

(** ** IEEE-754 binary32 *)

Module IEEE32.

Definition prec : Z := 24.
Definition emax : Z := 128.

(** A [float] by its 32 bits: sign, 8 exponent bits, 23 fraction bits. *)
Definition float : Type := Z.

Definition decode (b : float) : spec_float :=
  let b := b mod 2 ^ 32 in
  let s := Z.testbit b 31 in
  let e := Z.land (Z.shiftr b 23) 255 in
  let m := Z.land b (2 ^ 23 - 1) in
  if e =? 255 then (if m =? 0 then S754_infinity s else S754_nan)
  else if e =? 0 then
    match m with Zpos p => S754_finite s p (-149) | _ => S754_zero s end
  else
    match m + 2 ^ 23 with
    | Zpos p => S754_finite s p (e - 150)
    | _ => S754_nan
    end.

Definition sign_bit (s : bool) : Z := if s then 2 ^ 31 else 0.

(** The bits of a float in canonical form, as the operations of
    [SpecFloat] return it; NaN is stored as the default quiet NaN. *)
Definition encode (x : spec_float) : float :=
  match x with
  | S754_zero s => sign_bit s
  | S754_infinity s => sign_bit s + 255 * 2 ^ 23
  | S754_nan => 255 * 2 ^ 23 + 2 ^ 22
  | S754_finite s m e =>
      if Zpos m <? 2 ^ 23 then sign_bit s + Zpos m
      else sign_bit s + (e + 150) * 2 ^ 23 + (Zpos m - 2 ^ 23)
  end.

Definition lift1 (op : spec_float -> spec_float) (a : float) : float :=
  encode (op (decode a)).

Definition lift2 (op : spec_float -> spec_float -> spec_float)
    (a b : float) : float :=
  encode (op (decode a) (decode b)).

Definition of_Z (n : Z) : float := encode (binary_normalize prec emax n 0 false).

Definition INT_MIN : Z := - 2 ^ 31.
Definition INT_MAX : Z := 2 ^ 31 - 1.

(** The integer part of a finite float; [None] for infinities and NaN. *)
Definition SFtrunc (x : spec_float) : option Z :=
  match x with
  | S754_zero _ => Some 0
  | S754_finite s m e =>
      let a := if 0 <=? e then Z.shiftl (Zpos m) e else Z.shiftr (Zpos m) (- e) in
      Some (if s then - a else a)
  | _ => None
  end.

(** [(int)x].  Where C leaves the conversion undefined (NaN, infinities,
    values outside [int]) the result is [INT_MIN], as [cvttss2si] gives. *)
Definition to_Z (x : float) : Z :=
  match SFtrunc (decode x) with
  | Some n => if (INT_MIN <=? n) && (n <=? INT_MAX) then n else INT_MIN
  | None => INT_MIN
  end.

Definition SFfloor (x : spec_float) : spec_float :=
  match x with
  | S754_finite s m e =>
      if 0 <=? e then x
      else
        let q := Z.shiftr (Zpos m) (- e) in
        let exact := Z.shiftl q (- e) =? Zpos m in
        if s then binary_normalize prec emax (- (if exact then q else q + 1)) 0 true
        else binary_normalize prec emax q 0 false
  | _ => x
  end.

(** [fminf] and [fmaxf]: a NaN argument yields the other argument. *)
Definition SFmin (x y : spec_float) : spec_float :=
  match x, y with
  | S754_nan, _ => y
  | _, S754_nan => x
  | _, _ => if SFltb x y then x else y
  end.

Definition SFmax (x y : spec_float) : spec_float :=
  match x, y with
  | S754_nan, _ => y
  | _, S754_nan => x
  | _, _ => if SFltb x y then y else x
  end.

(** The [double] nearest to one tenth, [0x3FB999999999999A]. *)
Definition tenth_double : spec_float := S754_finite false 7205759403792794 (-56).

(** Rounding a [double] to [float]. *)
Definition narrow (x : spec_float) : spec_float :=
  match x with
  | S754_finite s m e => binary_round prec emax s m e
  | _ => x
  end.

Definition SFadd_tenth (x : spec_float) : spec_float :=
  narrow (SFadd 53 1024 x tenth_double).

Definition half : spec_float := S754_finite false 8388608 (-24).

(** C's [a != b]: true as soon as one side is NaN. *)
Definition fne (a b : float) : bool := negb (SFeqb (decode a) (decode b)).

(** The platform's [libm] supplies [log10f] and [powf]. *)
Definition arith (libm_log10f : float -> float)
    (libm_powf : float -> float -> float) : FloatArith float := {|
  of_int := of_Z;
  to_int := to_Z;
  fsub := lift2 (SFsub prec emax);
  fmul := lift2 (SFmul prec emax);
  fdiv := lift2 (SFdiv prec emax);
  fneg := lift1 SFopp;
  flt := fun a b => SFltb (decode a) (decode b);
  fle := fun a b => SFleb (decode a) (decode b);
  fabsf := lift1 SFabs;
  fminf := lift2 SFmin;
  fmaxf := lift2 SFmax;
  floorf := lift1 SFfloor;
  log10f := libm_log10f;
  powf := libm_powf;
  add_tenth := lift1 SFadd_tenth;
  gt_half := fun a => SFltb half (decode a)
|}.

End IEEE32.

(** ** Exact arithmetic *)

(** The same operations on real numbers, without rounding: [log10f] is
    [ln x / ln 10], [powf] is [Rpower] (its base is 10 in this file) and
    [floorf] is the integer part.  This is not the arithmetic of the code,
    which computes in binary32 with the platform's libm; it is the
    arithmetic in which the prose of the rule is read, to compare the rule
    as written in the source with the rule as the specification words
    it. *)
Module Exact.

Definition Rltb (a b : R) : bool := if Rlt_dec a b then true else false.
Definition Rleb (a b : R) : bool := if Rle_dec a b then true else false.

Definition Rfloor (x : R) : Z := Int_part x.

Definition Rtrunc (x : R) : Z :=
  if Rle_dec 0 x then Int_part x else - Int_part (- x).

Definition log10 (x : R) : R := (ln x / ln 10)%R.

Definition arith : FloatArith R := {|
  of_int := IZR;
  to_int := Rtrunc;
  fsub := Rminus;
  fmul := Rmult;
  fdiv := Rdiv;
  fneg := Ropp;
  flt := Rltb;
  fle := Rleb;
  fabsf := Rabs;
  fminf := Rmin;
  fmaxf := Rmax;
  floorf := fun x => IZR (Rfloor x);
  log10f := log10;
  powf := Rpower;
  add_tenth := fun x => (x + 1 / 10)%R;
  gt_half := fun x => Rltb (1 / 2) x
|}.

End Exact.

(** ** Step and digits of a float slider *)

Section SliderArithmetic.

Context {F : Type} {A : FloatArith F}.

(** [fminf(max-min, fmaxf(fabsf(min),fabsf(max)))], the [top] of line 132. *)
Definition range_top (min max : F) : F :=
  fminf (fsub max min) (fmaxf (fabsf min) (fabsf max)).

(** [top >= 100], the test of line 133. *)
Definition top_at_least_100 (min max : F) : bool :=
  fle (of_int 100) (range_top min max).

(** Lines 129-147 of [dt_bauhaus_slider_from_params]: the step and the
    number of digits derived from the range of a float field. *)
Definition slider_step_digits (min max : F) : F * Z :=
  let digits := 2 in
  let step := of_int 0 in
  let top := fminf (fsub max min) (fmaxf (fabsf min) (fabsf max)) in
  if fle (of_int 100) top then
    let step := of_int 1 in
    (step, digits)
  else
    let step := fdiv top (of_int 100) in
    let log10step := log10f step in
    let fdigits := floorf (add_tenth log10step) in
    let step := powf (of_int 10) fdigits in
    let step := if gt_half (fsub log10step fdigits) then fmul step (of_int 5) else step in
    let digits := if flt fdigits (of_int (-2)) then to_int (fneg fdigits) else digits in
    (step, digits).

(** The rule as the specification words it: [top = min(max-min,
    max(|min|,|max|))]; step 1 when [top >= 100]; otherwise
    [e = floor(log10(top/100))], step [10^e], times 5 when the fractional
    part of the logarithm exceeds 0.5; 2 digits unless [e < -2], then
    [-e]. *)
Definition spec_step_digits (min max : F) : F * Z :=
  let top := fminf (fsub max min) (fmaxf (fabsf min) (fabsf max)) in
  if fle (of_int 100) top then (of_int 1, 2)
  else
    let l := log10f (fdiv top (of_int 100)) in
    let e := floorf l in
    let step := powf (of_int 10) e in
    (if gt_half (fsub l e) then fmul step (of_int 5) else step,
     if flt e (of_int (-2)) then to_int (fneg e) else 2).

(** The rule with the tenth that the source adds before taking the floor:
    [e = floor(log10(top/100) + 0.1)], times 5 when
    [log10(top/100) - e > 0.5]. *)
Definition amended_step_digits (min max : F) : F * Z :=
  let top := fminf (fsub max min) (fmaxf (fabsf min) (fabsf max)) in
  if fle (of_int 100) top then (of_int 1, 2)
  else
    let l := log10f (fdiv top (of_int 100)) in
    let e := floorf (add_tenth l) in
    let step := powf (of_int 10) e in
    (if gt_half (fsub l e) then fmul step (of_int 5) else step,
     if flt e (of_int (-2)) then to_int (fneg e) else 2).

End SliderArithmetic.

(** ** Introspection *)

Definition float : Type := IEEE32.float.

(** Modelled from the spec: [common/introspection.h] is not among the
    sources.  A field descriptor has a kind (float, integer, unsigned,
    boolean, enumeration), a range for the numeric kinds or a table for an
    enumeration, a description and the byte offset of the field in the
    parameter block.  [DT_INTROSPECTION_TYPE_OPAQUE] stands for every kind
    the binders do not name. *)
Inductive dt_introspection_type_t :=
| DT_INTROSPECTION_TYPE_OPAQUE
| DT_INTROSPECTION_TYPE_FLOAT
| DT_INTROSPECTION_TYPE_INT
| DT_INTROSPECTION_TYPE_UINT
| DT_INTROSPECTION_TYPE_BOOL
| DT_INTROSPECTION_TYPE_ENUM.

Record dt_introspection_type_header_t := {
  description : string;
  offset : Z
}.

(** One row of an enumeration table; the row whose [name] is NULL ends the
    table. *)
Module Tuple.
Record dt_introspection_type_enum_tuple_t := {
  name : option string;
  value : Z;
  description : string
}.
End Tuple.

(** The union [dt_introspection_field_t], tagged by [header.type]. *)
Inductive dt_introspection_field_t :=
| Float (header : dt_introspection_type_header_t) (Min Max : float)
| Int (header : dt_introspection_type_header_t) (Min Max : Z)
| UInt (header : dt_introspection_type_header_t) (Min Max : Z)
| Bool (header : dt_introspection_type_header_t)
| Enum (header : dt_introspection_type_header_t)
       (values : option (list Tuple.dt_introspection_type_enum_tuple_t))
| Opaque (header : dt_introspection_type_header_t).

Definition header (f : dt_introspection_field_t) : dt_introspection_type_header_t :=
  match f with
  | Float h _ _ | Int h _ _ | UInt h _ _ | Bool h | Enum h _ | Opaque h => h
  end.

Definition type (f : dt_introspection_field_t) : dt_introspection_type_t :=
  match f with
  | Float _ _ _ => DT_INTROSPECTION_TYPE_FLOAT
  | Int _ _ _ => DT_INTROSPECTION_TYPE_INT
  | UInt _ _ _ => DT_INTROSPECTION_TYPE_UINT
  | Bool _ => DT_INTROSPECTION_TYPE_BOOL
  | Enum _ _ => DT_INTROSPECTION_TYPE_ENUM
  | Opaque _ => DT_INTROSPECTION_TYPE_OPAQUE
  end.

(** ** Modules, widgets and the log of calls *)

(** A module instance ([dt_iop_module_t *]) and an allocated widget
    ([GtkWidget *], never NULL; a pointer that may be NULL is an
    [option GtkWidget]). *)
Definition mod_id : Type := nat.
Definition GtkWidget : Type := positive.

(** The value a callback hands to [gui_changed] through [void *data]: the
    field as it was before the change. *)
Inductive previous_t :=
| previous_float (x : float)
| previous_int (n : Z).

(** What [g_signal_connect] binds: a callback of this file and its user
    data (a pointer into the parameter block, or the pair of
    [dt_module_param_t]). *)
Module Closure.
Inductive t :=
| generic_slider_float_callback (field : Z)
| generic_slider_int_callback (field : Z)
| generic_combobox_enum_callback (field : Z)
| generic_combobox_bool_callback (field : Z)
| generic_toggle_callback (module : mod_id) (param : Z).
End Closure.

Inductive GtkOrientation := GTK_ORIENTATION_HORIZONTAL | GTK_ORIENTATION_VERTICAL.
Inductive dt_bauhaus_combobox_alignment_t :=
| DT_BAUHAUS_COMBOBOX_ALIGN_LEFT
| DT_BAUHAUS_COMBOBOX_ALIGN_RIGHT.
(** The spacing macro of [bauhaus.h], kept symbolic. *)
Inductive spacing_t := DT_BAUHAUS_SPACE.

(** Calls that leave this file, with their arguments; a constructor
    returns the widget [ret]. *)
Module Call.
Inductive t :=
| gui_changed (self : mod_id) (widget : GtkWidget) (data : previous_t)
| dt_iop_color_picker_reset (self : mod_id) (update : bool)
| dt_dev_add_history_item (self : mod_id) (enable : bool)
| dt_bauhaus_slider_new_with_range_and_feedback (ret : GtkWidget)
    (self : mod_id) (min max step defval : float) (digits feedback : Z)
| dt_bauhaus_slider_new (ret : GtkWidget) (self : mod_id)
| dt_bauhaus_slider_set_format (widget : GtkWidget) (format : string)
| dt_bauhaus_widget_set_label (widget : option GtkWidget) (label : string)
| dt_bauhaus_combobox_new (ret : GtkWidget) (self : mod_id)
| dt_bauhaus_combobox_add (widget : GtkWidget) (text : string)
| dt_bauhaus_combobox_add_full (widget : GtkWidget) (text : string)
    (align : dt_bauhaus_combobox_alignment_t) (data : Z) (sensitive : bool)
| gtk_check_button_new_with_label (ret : GtkWidget) (label : string)
| g_signal_connect (widget : GtkWidget) (signal : string) (handler : Closure.t)
| g_signal_connect_data_g_free (widget : GtkWidget) (signal : string)
    (handler : Closure.t)
| gtk_box_new (ret : GtkWidget) (orientation : GtkOrientation) (spacing : spacing_t)
| gtk_box_pack_start (box : GtkWidget) (child : option GtkWidget).
End Call.

Definition heap_t : Type := Z -> Z.

Definition gui_changed_t : Type :=
  mod_id -> GtkWidget -> previous_t -> heap_t -> heap_t.

(** [dt_iop_module_so_t]: the two introspection accessors of a module. *)
Record dt_iop_module_so_t := {
  get_f : string -> option dt_introspection_field_t;
  get_p : Z -> string -> Z
}.

(** [dt_iop_module_t], the fields this file touches.  [params] is the
    address of the parameter block; a hook may rewrite the heap. *)
Record dt_iop_module_t := {
  so : dt_iop_module_so_t;
  params : Z;
  widget : option GtkWidget;
  gui_changed : option gui_changed_t
}.

Record world := {
  heap : heap_t;
  modules : mod_id -> dt_iop_module_t;
  (* darktable.gui->reset *)
  reset : Z;
  (* what the toolkit answers *)
  slider_value : GtkWidget -> float;
  combobox_data : GtkWidget -> option Z;
  combobox_selected : GtkWidget -> Z;
  toggle_active : GtkWidget -> Z;
  bauhaus_module : GtkWidget -> mod_id;
  (* the platform *)
  gettext : string -> string;
  libm_log10f : float -> float;
  libm_powf : float -> float -> float;
  (* allocation of widgets and the calls made so far *)
  next_widget : GtkWidget;
  calls : list Call.t
}.

Definition set_heap (h : heap_t) (w : world) : world :=
  {| heap := h; modules := modules w; reset := reset w;
     slider_value := slider_value w; combobox_data := combobox_data w;
     combobox_selected := combobox_selected w; toggle_active := toggle_active w;
     bauhaus_module := bauhaus_module w; gettext := gettext w;
     libm_log10f := libm_log10f w; libm_powf := libm_powf w;
     next_widget := next_widget w; calls := calls w |}.

Definition set_modules (m : mod_id -> dt_iop_module_t) (w : world) : world :=
  {| heap := heap w; modules := m; reset := reset w;
     slider_value := slider_value w; combobox_data := combobox_data w;
     combobox_selected := combobox_selected w; toggle_active := toggle_active w;
     bauhaus_module := bauhaus_module w; gettext := gettext w;
     libm_log10f := libm_log10f w; libm_powf := libm_powf w;
     next_widget := next_widget w; calls := calls w |}.

Definition set_next_widget (n : GtkWidget) (w : world) : world :=
  {| heap := heap w; modules := modules w; reset := reset w;
     slider_value := slider_value w; combobox_data := combobox_data w;
     combobox_selected := combobox_selected w; toggle_active := toggle_active w;
     bauhaus_module := bauhaus_module w; gettext := gettext w;
     libm_log10f := libm_log10f w; libm_powf := libm_powf w;
     next_widget := n; calls := calls w |}.

Definition set_calls (l : list Call.t) (w : world) : world :=
  {| heap := heap w; modules := modules w; reset := reset w;
     slider_value := slider_value w; combobox_data := combobox_data w;
     combobox_selected := combobox_selected w; toggle_active := toggle_active w;
     bauhaus_module := bauhaus_module w; gettext := gettext w;
     libm_log10f := libm_log10f w; libm_powf := libm_powf w;
     next_widget := next_widget w; calls := l |}.

Definition set_widget (b : option GtkWidget) (m : dt_iop_module_t) : dt_iop_module_t :=
  {| so := so m; params := params m; widget := b; gui_changed := gui_changed m |}.

Definition upd {V : Type} (f : Z -> V) (a : Z) (v : V) : Z -> V :=
  fun x => if x =? a then v else f x.

Definition upd_module (f : mod_id -> dt_iop_module_t) (a : mod_id)
    (v : dt_iop_module_t) : mod_id -> dt_iop_module_t :=
  fun x => if Nat.eqb x a then v else f x.

(** ** The state monad of the program *)

Definition M (A : Type) : Type := world -> A * world.

Definition ret {A : Type} (a : A) : M A := fun w => (a, w).

Definition bind {A B : Type} (c : M A) (k : A -> M B) : M B :=
  fun w => let (a, w') := c w in k a w'.

Declare Scope prog_scope.
Delimit Scope prog_scope with prog.
Notation "x <- c ;; k" := (bind c (fun x => k))
  (at level 61, c at next level, right associativity) : prog_scope.
Notation "c ;; k" := (bind c (fun _ => k))
  (at level 61, right associativity) : prog_scope.
Local Open Scope prog_scope.

Definition gets {A : Type} (f : world -> A) : M A := fun w => (f w, w).
Definition modify (f : world -> world) : M unit := fun w => (tt, f w).

(** Run a program for its final world. *)
Definition exec {A : Type} (c : M A) (w : world) : world := snd (c w).
Definition eval {A : Type} (c : M A) (w : world) : A := fst (c w).

Definition call (c : Call.t) : M unit :=
  modify (fun w => set_calls (calls w ++ [c]) w).

(** A constructor of the toolkit returns a widget never seen before. *)
Definition new_widget : M GtkWidget :=
  fun w => (next_widget w, set_next_widget (Pos.succ (next_widget w)) w).

(** ** Memory *)

Definition wrap32 (n : Z) : Z := n mod 2 ^ 32.
Definition signed32 (w : Z) : Z :=
  let u := wrap32 w in if u <? 2 ^ 31 then u else u - 2 ^ 32.

(** Reading and writing a 4-byte cell through a [float] or an [int]
    pointer. *)
Definition load_float (a : Z) : M float := gets (fun w => heap w a).
Definition load_int (a : Z) : M Z := gets (fun w => signed32 (heap w a)).
Definition store_float (a : Z) (v : float) : M unit :=
  modify (fun w => set_heap (upd (heap w) a v) w).
Definition store_int (a : Z) (n : Z) : M unit :=
  modify (fun w => set_heap (upd (heap w) a (wrap32 n)) w).

(** ** The collaborators *)

Definition dt_bauhaus_slider_get (slider : GtkWidget) : M float :=
  gets (fun w => slider_value w slider).
Definition dt_bauhaus_combobox_get_data (combobox : GtkWidget) : M (option Z) :=
  gets (fun w => combobox_data w combobox).
Definition dt_bauhaus_combobox_get (combobox : GtkWidget) : M Z :=
  gets (fun w => combobox_selected w combobox).
Definition gtk_toggle_button_get_active (button : GtkWidget) : M Z :=
  gets (fun w => toggle_active w button).

(** The colour picker and the history take the module and a flag; the
    history's first argument is always [darktable.develop] and is left
    out. *)
Definition dt_iop_color_picker_reset (self : mod_id) (update : bool) : M unit :=
  call (Call.dt_iop_color_picker_reset self update).
Definition dt_dev_add_history_item (self : mod_id) (enable : bool) : M unit :=
  call (Call.dt_dev_add_history_item self enable).

(** Calling the hook of a module: logged, then applied to the heap. *)
Definition call_gui_changed (hook : gui_changed_t) (self : mod_id)
    (widget : GtkWidget) (data : previous_t) : M unit :=
  call (Call.gui_changed self widget data) ;;
  modify (fun w => set_heap (hook self widget data (heap w)) w).

Definition dt_bauhaus_slider_new_with_range_and_feedback (self : mod_id)
    (min max step defval : float) (digits feedback : Z) : M GtkWidget :=
  ret_w <- new_widget ;;
  call (Call.dt_bauhaus_slider_new_with_range_and_feedback ret_w self
          min max step defval digits feedback) ;;
  ret ret_w.
Definition dt_bauhaus_slider_new (self : mod_id) : M GtkWidget :=
  ret_w <- new_widget ;;
  call (Call.dt_bauhaus_slider_new ret_w self) ;;
  ret ret_w.
Definition dt_bauhaus_combobox_new (self : mod_id) : M GtkWidget :=
  ret_w <- new_widget ;;
  call (Call.dt_bauhaus_combobox_new ret_w self) ;;
  ret ret_w.
Definition gtk_check_button_new_with_label (label : string) : M GtkWidget :=
  ret_w <- new_widget ;;
  call (Call.gtk_check_button_new_with_label ret_w label) ;;
  ret ret_w.
Definition gtk_box_new (o : GtkOrientation) (spacing : spacing_t) : M GtkWidget :=
  ret_w <- new_widget ;;
  call (Call.gtk_box_new ret_w o spacing) ;;
  ret ret_w.

Definition dt_bauhaus_slider_set_format (w : GtkWidget) (format : string) : M unit :=
  call (Call.dt_bauhaus_slider_set_format w format).
Definition dt_bauhaus_widget_set_label (w : option GtkWidget) (label : string) : M unit :=
  call (Call.dt_bauhaus_widget_set_label w label).
Definition dt_bauhaus_combobox_add (w : GtkWidget) (text : string) : M unit :=
  call (Call.dt_bauhaus_combobox_add w text).
Definition dt_bauhaus_combobox_add_full (w : GtkWidget) (text : string)
    (align : dt_bauhaus_combobox_alignment_t) (data : Z) (sensitive : bool) : M unit :=
  call (Call.dt_bauhaus_combobox_add_full w text align data sensitive).
Definition g_signal_connect (w : GtkWidget) (signal : string) (h : Closure.t) : M unit :=
  call (Call.g_signal_connect w signal h).
Definition g_signal_connect_data_g_free (w : GtkWidget) (signal : string)
    (h : Closure.t) : M unit :=
  call (Call.g_signal_connect_data_g_free w signal h).
Definition gtk_box_pack_start (box : GtkWidget) (child : option GtkWidget) : M unit :=
  call (Call.gtk_box_pack_start box child).

Definition get_module (self : mod_id) : M dt_iop_module_t :=
  gets (fun w => modules w self).
Definition set_self_widget (self : mod_id) (b : GtkWidget) : M unit :=
  modify (fun w =>
    set_modules (upd_module (modules w) self (set_widget (Some b) (modules w self))) w).

(** ** The change callbacks (lines 45-112) *)

Definition process_changed_value (self : option mod_id) (widget : GtkWidget)
    (data : previous_t) : M unit :=
  self <- match self with
          | Some m => ret m
          | None => gets (fun w => bauhaus_module w widget)
          end ;;
  m <- get_module self ;;
  match gui_changed m with
  | Some hook => call_gui_changed hook self widget data
  | None => ret tt
  end ;;
  dt_iop_color_picker_reset self true ;;
  dt_dev_add_history_item self true.

Definition generic_slider_float_callback (slider : GtkWidget) (field : Z) : M unit :=
  r <- gets reset ;;
  if negb (r =? 0) then ret tt else
  previous <- load_float field ;;
  v <- dt_bauhaus_slider_get slider ;;
  store_float field v ;;
  now <- load_float field ;;
  if IEEE32.fne now previous
  then process_changed_value None slider (previous_float previous)
  else ret tt.

Definition generic_slider_int_callback (slider : GtkWidget) (field : Z) : M unit :=
  r <- gets reset ;;
  if negb (r =? 0) then ret tt else
  previous <- load_int field ;;
  v <- dt_bauhaus_slider_get slider ;;
  store_int field (IEEE32.to_Z v) ;;
  now <- load_int field ;;
  if negb (now =? previous)
  then process_changed_value None slider (previous_int previous)
  else ret tt.

Definition generic_combobox_enum_callback (combobox : GtkWidget) (field : Z) : M unit :=
  r <- gets reset ;;
  if negb (r =? 0) then ret tt else
  previous <- load_int field ;;
  combo_data <- dt_bauhaus_combobox_get_data combobox ;;
  match combo_data with
  | Some d => store_int field d
  | None => i <- dt_bauhaus_combobox_get combobox ;; store_int field i
  end ;;
  now <- load_int field ;;
  if negb (now =? previous)
  then process_changed_value None combobox (previous_int previous)
  else ret tt.

Definition generic_combobox_bool_callback (combobox : GtkWidget) (field : Z) : M unit :=
  r <- gets reset ;;
  if negb (r =? 0) then ret tt else
  previous <- load_int field ;;
  i <- dt_bauhaus_combobox_get combobox ;;
  store_int field i ;;
  now <- load_int field ;;
  if negb (now =? previous)
  then process_changed_value None combobox (previous_int previous)
  else ret tt.

Definition generic_toggle_callback (togglebutton : GtkWidget)
    (data_module : mod_id) (data_param : Z) : M unit :=
  r <- gets reset ;;
  if negb (r =? 0) then ret tt else
  let self := data_module in
  let field := data_param in
  previous <- load_int field ;;
  b <- gtk_toggle_button_get_active togglebutton ;;
  store_int field b ;;
  now <- load_int field ;;
  if negb (now =? previous)
  then process_changed_value (Some self) togglebutton (previous_int previous)
  else ret tt.

(** A change event: the toolkit runs the closure connected to [widget]. *)
Definition emit (widget : GtkWidget) (h : Closure.t) : M unit :=
  match h with
  | Closure.generic_slider_float_callback field =>
      generic_slider_float_callback widget field
  | Closure.generic_slider_int_callback field =>
      generic_slider_int_callback widget field
  | Closure.generic_combobox_enum_callback field =>
      generic_combobox_enum_callback widget field
  | Closure.generic_combobox_bool_callback field =>
      generic_combobox_bool_callback widget field
  | Closure.generic_toggle_callback module param =>
      generic_toggle_callback widget module param
  end.

(** ** The binders (lines 114-272) *)

(** The [float] arithmetic of the platform a world runs on. *)
Definition arith_of (w : world) : FloatArith float :=
  IEEE32.arith (libm_log10f w) (libm_powf w).

Definition type_eqb (a b : dt_introspection_type_t) : bool :=
  match a, b with
  | DT_INTROSPECTION_TYPE_OPAQUE, DT_INTROSPECTION_TYPE_OPAQUE
  | DT_INTROSPECTION_TYPE_FLOAT, DT_INTROSPECTION_TYPE_FLOAT
  | DT_INTROSPECTION_TYPE_INT, DT_INTROSPECTION_TYPE_INT
  | DT_INTROSPECTION_TYPE_UINT, DT_INTROSPECTION_TYPE_UINT
  | DT_INTROSPECTION_TYPE_BOOL, DT_INTROSPECTION_TYPE_BOOL
  | DT_INTROSPECTION_TYPE_ENUM, DT_INTROSPECTION_TYPE_ENUM => true
  | _, _ => false
  end.

(** [f->header.type == t]. *)
Definition type_is (f : dt_introspection_field_t) (t : dt_introspection_type_t) : bool :=
  type_eqb (type f) t.

(** [f->Enum.values], a member read under the ENUM tag only. *)
Definition Enum_values (f : dt_introspection_field_t)
  : option (list Tuple.dt_introspection_type_enum_tuple_t) :=
  match f with Enum _ values => values | _ => None end.

(** [printf]'s [%d]. *)
Definition decimal (n : Z) : string := NilZero.string_of_int (Z.to_int n).

(** Lines 187, 237 and 268: [if(!self->widget) self->widget = gtk_box_new(...)],
    then the value of [self->widget]. *)
Definition self_widget (self : mod_id) : M GtkWidget :=
  m <- get_module self ;;
  match widget m with
  | Some box => ret box
  | None =>
      box <- gtk_box_new GTK_ORIENTATION_VERTICAL DT_BAUHAUS_SPACE ;;
      set_self_widget self box ;;
      ret box
  end.

Definition dt_bauhaus_slider_from_params (self : mod_id) (param : string)
  : M (option GtkWidget) :=
  m <- get_module self ;;
  let p := params m in
  let f := get_f (so m) param in
  slider <-
    match f with
    | Some f =>
        slider <-
          match f with
          | Float h min max =>
              defval <- load_float (get_p (so m) p param) ;;
              A <- gets arith_of ;;
              let '(step, digits) := slider_step_digits (A := A) min max in
              slider <- dt_bauhaus_slider_new_with_range_and_feedback
                          self min max step defval digits 1 ;;
              let post := "" in
              (if flt (FloatArith := A) min (of_int 0) || negb (post =? "")%string then
                 let str := "%" ++ (if flt (FloatArith := A) min (of_int 0) then "+" else "")
                            ++ ".0" ++ decimal digits ++ "f" ++ post in
                 dt_bauhaus_slider_set_format slider str
               else ret tt) ;;
              g_signal_connect slider "value-changed"
                (Closure.generic_slider_float_callback (p + offset h)) ;;
              ret (Some slider)
          | Int h min max =>
              raw <- load_float (get_p (so m) p param) ;;
              let defval := IEEE32.to_Z raw in
              slider <- dt_bauhaus_slider_new_with_range_and_feedback
                          self (IEEE32.of_Z min) (IEEE32.of_Z max) (IEEE32.of_Z 1)
                          (IEEE32.of_Z defval) 0 1 ;;
              g_signal_connect slider "value-changed"
                (Closure.generic_slider_int_callback (p + offset h)) ;;
              ret (Some slider)
          | _ => ret None
          end ;;
        label <- gets (fun w => gettext w (description (header f))) ;;
        dt_bauhaus_widget_set_label slider label ;;
        ret slider
    | None =>
        let str := "'" ++ param ++ "' is not a float/int/slider parameter" in
        slider <- dt_bauhaus_slider_new self ;;
        dt_bauhaus_widget_set_label (Some slider) str ;;
        ret (Some slider)
    end ;;
  box <- self_widget self ;;
  gtk_box_pack_start box slider ;;
  ret slider.

(** The loop of line 219 over the rows of an enumeration table. *)
Fixpoint add_enum_values (combobox : GtkWidget)
    (iter : list Tuple.dt_introspection_type_enum_tuple_t) : M unit :=
  match iter with
  | [] => ret tt
  | t :: iter' =>
      match Tuple.name t with
      | None => ret tt
      | Some _ =>
          text <- gets (fun w => gettext w (Tuple.description t)) ;;
          dt_bauhaus_combobox_add_full combobox text
            DT_BAUHAUS_COMBOBOX_ALIGN_RIGHT (Tuple.value t) true ;;
          add_enum_values combobox iter'
      end
  end.

Definition dt_bauhaus_combobox_from_params (self : mod_id) (param : string)
  : M (option GtkWidget) :=
  m <- get_module self ;;
  let p := params m in
  let f := get_f (so m) param in
  combobox <- dt_bauhaus_combobox_new self ;;
  let mismatch :=
    let str := "'" ++ param ++ "' is not an enum/int/bool/combobox parameter" in
    dt_bauhaus_widget_set_label (Some combobox) str in
  match f with
  | Some f =>
      if type_is f DT_INTROSPECTION_TYPE_ENUM || type_is f DT_INTROSPECTION_TYPE_INT
         || type_is f DT_INTROSPECTION_TYPE_UINT || type_is f DT_INTROSPECTION_TYPE_BOOL
      then
        label <- gets (fun w => gettext w (description (header f))) ;;
        dt_bauhaus_widget_set_label (Some combobox) label ;;
        if type_is f DT_INTROSPECTION_TYPE_BOOL then
          no <- gets (fun w => gettext w "no") ;;
          dt_bauhaus_combobox_add combobox no ;;
          yes <- gets (fun w => gettext w "yes") ;;
          dt_bauhaus_combobox_add combobox yes ;;
          g_signal_connect combobox "value-changed"
            (Closure.generic_combobox_bool_callback (p + offset (header f)))
        else
          (if type_is f DT_INTROSPECTION_TYPE_ENUM then
             match Enum_values f with
             | Some values => add_enum_values combobox values
             | None => ret tt
             end
           else ret tt) ;;
          g_signal_connect combobox "value-changed"
            (Closure.generic_combobox_enum_callback (p + offset (header f)))
      else mismatch
  | None => mismatch
  end ;;
  box <- self_widget self ;;
  gtk_box_pack_start box (Some combobox) ;;
  ret (Some combobox).

Definition dt_bauhaus_toggle_from_params (self : mod_id) (param : string)
  : M (option GtkWidget) :=
  m <- get_module self ;;
  let p := params m in
  let f := get_f (so m) param in
  let mismatch :=
    let str := "'" ++ param ++ "' is not a bool/togglebutton parameter" in
    gtk_check_button_new_with_label str in
  button <-
    match f with
    | Some f =>
        if type_is f DT_INTROSPECTION_TYPE_BOOL then
          label <- gets (fun w => gettext w (description (header f))) ;;
          button <- gtk_check_button_new_with_label label ;;
          let module_param := Closure.generic_toggle_callback self (p + offset (header f)) in
          g_signal_connect_data_g_free button "toggled" module_param ;;
          ret button
        else mismatch
    | None => mismatch
    end ;;
  box <- self_widget self ;;
  gtk_box_pack_start box (Some button) ;;
  ret (Some button).

(** The binder API and a sequence of calls on one module. *)
Inductive binder_call :=
| bind_slider (param : string)
| bind_choice_list (param : string)
| bind_toggle (param : string).

Definition run_binder (self : mod_id) (c : binder_call) : M (option GtkWidget) :=
  match c with
  | bind_slider param => dt_bauhaus_slider_from_params self param
  | bind_choice_list param => dt_bauhaus_combobox_from_params self param
  | bind_toggle param => dt_bauhaus_toggle_from_params self param
  end.

Fixpoint run_binders (self : mod_id) (cs : list binder_call)
  : M (list (option GtkWidget)) :=
  match cs with
  | [] => ret []
  | c :: cs' =>
      r <- run_binder self c ;;
      rs <- run_binders self cs' ;;
      ret (r :: rs)
  end.

(** ** A concrete module and world *)

Module Sample.

(** [log10f] and [powf] at the few arguments the runs below reach, as a
    correctly rounded [libm] answers there; NaN elsewhere. *)
Definition nan : float := IEEE32.encode S754_nan.

Definition table_log10f (x : float) : float :=
  if x =? 0x3c23d70a then 0xc0000000        (* log10f(0.01f) = -2 *)
  else if x =? 0x3f000000 then 0xbe9a209b   (* log10f(0.5f) = -0.30103 *)
  else if x =? 0x3f666666 then 0xbd3b6c38   (* log10f(0.9f) = -0.0457575 *)
  else nan.

Definition table_powf (x y : float) : float :=
  if negb (x =? 0x41200000) then nan
  else if y =? 0xc0000000 then 0x3c23d70a   (* powf(10, -2) = 0.01f *)
  else if y =? 0xbf800000 then 0x3dcccccd   (* powf(10, -1) = 0.1f *)
  else if y =? 0 then 0x3f800000            (* powf(10, 0) = 1 *)
  else nan.

Definition hdr (d : string) (o : Z) : dt_introspection_type_header_t :=
  {| description := d; offset := o |}.

Definition mode_values : list Tuple.dt_introspection_type_enum_tuple_t :=
  [ {| Tuple.name := Some "MODE_LINEAR"; Tuple.value := 10; Tuple.description := "linear" |};
    {| Tuple.name := Some "MODE_LOG"; Tuple.value := 20; Tuple.description := "logarithmic" |};
    {| Tuple.name := None; Tuple.value := 0; Tuple.description := "" |} ].

(** The parameters: a float in [-180, 180] at offset 0, an int in
    [0, 10] at 4, a boolean at 8, an enumeration at 12, an opaque blob at
    16, and floats in [-50, 50], [0, 90] and [0, 1] at 20, 24 and 28. *)
Definition fields (param : string) : option dt_introspection_field_t :=
  if (param =? "angle")%string then
    Some (Float (hdr "angle" 0) (IEEE32.of_Z (-180)) (IEEE32.of_Z 180))
  else if (param =? "iterations")%string then Some (Int (hdr "iterations" 4) 0 10)
  else if (param =? "enabled")%string then Some (Bool (hdr "enabled" 8))
  else if (param =? "mode")%string then Some (Enum (hdr "mode" 12) (Some mode_values))
  else if (param =? "blob")%string then Some (Opaque (hdr "blob" 16))
  else if (param =? "shift")%string then
    Some (Float (hdr "shift" 20) (IEEE32.of_Z (-50)) (IEEE32.of_Z 50))
  else if (param =? "gain")%string then
    Some (Float (hdr "gain" 24) (IEEE32.of_Z 0) (IEEE32.of_Z 90))
  else if (param =? "opacity")%string then
    Some (Float (hdr "opacity" 28) (IEEE32.of_Z 0) (IEEE32.of_Z 1))
  else None.

Definition the_so : dt_iop_module_so_t := {|
  get_f := fields;
  get_p := fun p param =>
    match fields param with Some f => p + offset (header f) | None => 0 end
|}.

(** A hook that leaves the parameters alone. *)
Definition hook : gui_changed_t := fun _ _ _ h => h.

Definition the_module : dt_iop_module_t :=
  {| so := the_so; params := 4096; widget := None; gui_changed := Some hook |}.

(** The block holds angle = 1.0f, iterations = 5, enabled = 0, mode = 10;
    the toolkit reports 1.0f on every slider, entry 1 with data 20 on every
    combobox and every toggle as active. *)
Definition the_heap : heap_t :=
  fun a =>
    if a =? 4096 then 0x3f800000
    else if a =? 4100 then 5
    else if a =? 4108 then 10
    else 0.

Definition w0 : world := {|
  heap := the_heap;
  modules := fun _ => the_module;
  reset := 0;
  slider_value := fun _ => 0x3f800000;
  combobox_data := fun _ => Some 20;
  combobox_selected := fun _ => 1;
  toggle_active := fun _ => 1;
  bauhaus_module := fun _ => 0%nat;
  gettext := fun s => s;
  libm_log10f := table_log10f;
  libm_powf := table_powf;
  next_widget := 1%positive;
  calls := []
|}.

(** The same world during a programmatic refresh. *)
Definition w_reset : world := {|
  heap := the_heap;
  modules := fun _ => the_module;
  reset := 1;
  slider_value := fun _ => 0x3f800000;
  combobox_data := fun _ => Some 20;
  combobox_selected := fun _ => 1;
  toggle_active := fun _ => 1;
  bauhaus_module := fun _ => 0%nat;
  gettext := fun s => s;
  libm_log10f := table_log10f;
  libm_powf := table_powf;
  next_widget := 1%positive;
  calls := []
|}.

Definition arith : FloatArith float := IEEE32.arith table_log10f table_powf.

End Sample.

(** ** Reading the log and the callbacks' inputs *)

(** The calls made between two worlds of one run. *)
Definition new_calls (w w' : world) : list Call.t :=
  skipn (List.length (calls w)) (calls w').

Definition is_hook (c : Call.t) : bool :=
  match c with Call.gui_changed _ _ _ => true | _ => false end.
Definition is_picker_reset (c : Call.t) : bool :=
  match c with Call.dt_iop_color_picker_reset _ _ => true | _ => false end.
Definition is_history (c : Call.t) : bool :=
  match c with Call.dt_dev_add_history_item _ _ => true | _ => false end.
Definition is_connect (c : Call.t) : bool :=
  match c with
  | Call.g_signal_connect _ _ _ | Call.g_signal_connect_data_g_free _ _ _ => true
  | _ => false
  end.
Definition is_container_call (c : Call.t) : bool :=
  match c with
  | Call.gtk_box_new _ _ _ | Call.gtk_box_pack_start _ _ => true
  | _ => false
  end.

Definition count (p : Call.t -> bool) (l : list Call.t) : nat :=
  List.length (filter p l).

(** Position of the first call that satisfies [p]. *)
Fixpoint index_of (p : Call.t -> bool) (l : list Call.t) : option nat :=
  match l with
  | [] => None
  | c :: l' =>
      if p c then Some 0%nat
      else match index_of p l' with Some i => Some (S i) | None => None end
  end.

Definition before (p q : Call.t -> bool) (l : list Call.t) : bool :=
  match index_of p l, index_of q l with
  | Some i, Some j => (i <? j)%nat
  | _, _ => false
  end.

(** The field a closure is bound to. *)
Definition field_of (h : Closure.t) : Z :=
  match h with
  | Closure.generic_slider_float_callback field
  | Closure.generic_slider_int_callback field
  | Closure.generic_combobox_enum_callback field
  | Closure.generic_combobox_bool_callback field => field
  | Closure.generic_toggle_callback _ param => param
  end.

(** The module a change is reported to: the toggle carries it, the
    bauhaus widgets know theirs. *)
Definition target (w : world) (widget : GtkWidget) (h : Closure.t) : mod_id :=
  match h with
  | Closure.generic_toggle_callback module _ => module
  | _ => bauhaus_module w widget
  end.

(** The value a callback reads from its control, converted to the type of
    the field. *)
Inductive value_t :=
| float_value (x : float)
| int_value (n : Z).

Definition incoming (w : world) (widget : GtkWidget) (h : Closure.t) : value_t :=
  match h with
  | Closure.generic_slider_float_callback _ => float_value (slider_value w widget)
  | Closure.generic_slider_int_callback _ =>
      int_value (IEEE32.to_Z (slider_value w widget))
  | Closure.generic_combobox_enum_callback _ =>
      int_value match combobox_data w widget with
                | Some d => d
                | None => combobox_selected w widget
                end
  | Closure.generic_combobox_bool_callback _ => int_value (combobox_selected w widget)
  | Closure.generic_toggle_callback _ _ => int_value (toggle_active w widget)
  end.

(** The field before the event, at the type the callback reads it. *)
Definition previous_of (w : world) (h : Closure.t) : previous_t :=
  match h with
  | Closure.generic_slider_float_callback field => previous_float (heap w field)
  | _ => previous_int (signed32 (heap w (field_of h)))
  end.

(** The 4 bytes a value occupies. *)
Definition cell_of (v : value_t) : Z :=
  match v with
  | float_value x => x
  | int_value n => wrap32 n
  end.

(** C's [!=] between the new value and the previous one: IEEE comparison
    for [float], comparison of 32-bit integers for [int] and [gboolean]. *)
Definition differs (new : value_t) (previous : previous_t) : bool :=
  match new, previous with
  | float_value x, previous_float y => IEEE32.fne x y
  | int_value n, previous_int m => negb (signed32 (wrap32 n) =? m)
  | _, _ => true
  end.

(** The call of the hook, when the module registered one. *)
Definition hook_calls (w : world) (self : mod_id) (widget : GtkWidget)
    (data : previous_t) : list Call.t :=
  match gui_changed (modules w self) with
  | Some _ => [Call.gui_changed self widget data]
  | None => []
  end.

(** The effect of a callback outside a reset: the write, then the report
    when the value changed. *)
Definition written (w : world) (widget : GtkWidget) (h : Closure.t) : world :=
  set_heap (upd (heap w) (field_of h) (cell_of (incoming w widget h))) w.

Definition reported (w : world) (widget : GtkWidget) (h : Closure.t) : world :=
  let self := target w widget h in
  let data := previous_of w h in
  let w1 := written w widget h in
  let w2 :=
    match gui_changed (modules w self) with
    | Some hook =>
        set_heap (hook self widget data (heap w1))
          (set_calls (calls w1 ++ [Call.gui_changed self widget data]) w1)
    | None => w1
    end in
  set_calls ((calls w2 ++ [Call.dt_iop_color_picker_reset self true])
             ++ [Call.dt_dev_add_history_item self true]) w2.

(** ** What a binder logs *)

(** The world after [l] was logged and widgets up to [fresh] were
    allocated. *)
Definition logged (l : list Call.t) (fresh : GtkWidget) (w : world) : world :=
  set_calls (calls w ++ l) (set_next_widget fresh w).

(** The common tail of the binders: the container is looked up or made,
    and the control packed into it. *)
Definition attached (self : mod_id) (r : option GtkWidget) (w : world) : world :=
  exec (box <- self_widget self ;; gtk_box_pack_start box r) w.

(** The container a control is packed into: the one the module had, or
    the [fresh] widget that [gtk_box_new] returns. *)
Definition container_of (existing : option GtkWidget) (fresh : GtkWidget)
  : GtkWidget :=
  match existing with
  | Some box => box
  | None => fresh
  end.

(** The calls of the common tail of the binders. *)
Definition attach_calls (existing : option GtkWidget) (fresh : GtkWidget)
    (r : option GtkWidget) : list Call.t :=
  match existing with
  | Some box => [Call.gtk_box_pack_start box r]
  | None =>
      [Call.gtk_box_new fresh GTK_ORIENTATION_VERTICAL DT_BAUHAUS_SPACE;
       Call.gtk_box_pack_start fresh r]
  end.

(** The container calls of a sequence of binder calls: the creation when
    the module had no container, then one packing per returned control. *)
Definition container_log (existing : option GtkWidget) (box : GtkWidget)
    (rs : list (option GtkWidget)) : list Call.t :=
  match existing with
  | Some _ => []
  | None => [Call.gtk_box_new box GTK_ORIENTATION_VERTICAL DT_BAUHAUS_SPACE]
  end ++ map (Call.gtk_box_pack_start box) rs.

(** A call that reports a change: the hook, the reset of the colour picker
    or the history item. *)
Definition is_change_call (c : Call.t) : bool :=
  is_hook c || is_picker_reset c || is_history c.

(** The rows of an enumeration table before the row that ends it. *)
Fixpoint enum_table (values : list Tuple.dt_introspection_type_enum_tuple_t)
  : list Tuple.dt_introspection_type_enum_tuple_t :=
  match values with
  | [] => []
  | t :: values' =>
      match Tuple.name t with
      | None => []
      | Some _ => t :: enum_table values'
      end
  end.

Definition enum_choice (w : world) (combobox : GtkWidget)
    (t : Tuple.dt_introspection_type_enum_tuple_t) : Call.t :=
  Call.dt_bauhaus_combobox_add_full combobox (gettext w (Tuple.description t))
    DT_BAUHAUS_COMBOBOX_ALIGN_RIGHT (Tuple.value t) true.

(** [min < 0] on the declared minimum of a float field. *)
Definition negative_min (min : float) : bool :=
  SFltb (IEEE32.decode min) (IEEE32.decode (IEEE32.of_Z 0)).

(** The control returned by the slider binder and the calls it makes
    before the control is attached. *)
Definition slider_calls (w : world) (self : mod_id) (param : string)
  : option GtkWidget * list Call.t :=
  let m := modules w self in
  let p := params m in
  let s := next_widget w in
  match get_f (so m) param with
  | Some (Float h min max) =>
      let sd := slider_step_digits (A := arith_of w) min max in
      (Some s,
       ([Call.dt_bauhaus_slider_new_with_range_and_feedback s self min max
           (fst sd) (heap w (get_p (so m) p param)) (snd sd) 1]
        ++ (if negative_min min
            then [Call.dt_bauhaus_slider_set_format s
                    ("%" ++ "+" ++ ".0" ++ decimal (snd sd) ++ "f" ++ "")%string]
            else [])
        ++ [Call.g_signal_connect s "value-changed"
              (Closure.generic_slider_float_callback (p + offset h));
            Call.dt_bauhaus_widget_set_label (Some s) (gettext w (description h))])%list)
  | Some (Int h min max) =>
      (Some s,
       [Call.dt_bauhaus_slider_new_with_range_and_feedback s self
          (IEEE32.of_Z min) (IEEE32.of_Z max) (IEEE32.of_Z 1)
          (IEEE32.of_Z (IEEE32.to_Z (heap w (get_p (so m) p param)))) 0 1;
        Call.g_signal_connect s "value-changed"
          (Closure.generic_slider_int_callback (p + offset h));
        Call.dt_bauhaus_widget_set_label (Some s) (gettext w (description h))])
  | Some f =>
      (None,
       [Call.dt_bauhaus_widget_set_label None (gettext w (description (header f)))])
  | None =>
      (Some s,
       [Call.dt_bauhaus_slider_new s self;
        Call.dt_bauhaus_widget_set_label (Some s)
          ("'" ++ param ++ "' is not a float/int/slider parameter")%string])
  end.

(** The calls of the choice-list binder on its fresh combobox [c]. *)
Definition combobox_calls (w : world) (self : mod_id) (param : string)
  : list Call.t :=
  let m := modules w self in
  let p := params m in
  let c := next_widget w in
  let mismatch :=
    [Call.dt_bauhaus_widget_set_label (Some c)
       ("'" ++ param ++ "' is not an enum/int/bool/combobox parameter")%string] in
  Call.dt_bauhaus_combobox_new c self ::
  match get_f (so m) param with
  | Some (Bool h) =>
      [Call.dt_bauhaus_widget_set_label (Some c) (gettext w (description h));
       Call.dt_bauhaus_combobox_add c (gettext w "no");
       Call.dt_bauhaus_combobox_add c (gettext w "yes");
       Call.g_signal_connect c "value-changed"
         (Closure.generic_combobox_bool_callback (p + offset h))]
  | Some (Enum h values) =>
      (Call.dt_bauhaus_widget_set_label (Some c) (gettext w (description h))
       :: map (enum_choice w c)
            (match values with Some values => enum_table values | None => [] end)
       ++ [Call.g_signal_connect c "value-changed"
             (Closure.generic_combobox_enum_callback (p + offset h))])%list
  | Some (Int h _ _) | Some (UInt h _ _) =>
      [Call.dt_bauhaus_widget_set_label (Some c) (gettext w (description h));
       Call.g_signal_connect c "value-changed"
         (Closure.generic_combobox_enum_callback (p + offset h))]
  | _ => mismatch
  end.

(** The calls of the toggle binder on its fresh check button [b]. *)
Definition toggle_calls (w : world) (self : mod_id) (param : string)
  : list Call.t :=
  let m := modules w self in
  let p := params m in
  let b := next_widget w in
  match get_f (so m) param with
  | Some (Bool h) =>
      [Call.gtk_check_button_new_with_label b (gettext w (description h));
       Call.g_signal_connect_data_g_free b "toggled"
         (Closure.generic_toggle_callback self (p + offset h))]
  | _ =>
      [Call.gtk_check_button_new_with_label b
         ("'" ++ param ++ "' is not a bool/togglebutton parameter")%string]
  end.

(** The control and the calls of any binder call. *)
Definition binder_calls (w : world) (self : mod_id) (c : binder_call)
  : option GtkWidget * list Call.t :=
  match c with
  | bind_slider param => slider_calls w self param
  | bind_choice_list param => (Some (next_widget w), combobox_calls w self param)
  | bind_toggle param => (Some (next_widget w), toggle_calls w self param)
  end.

(** The first widget a binder call leaves unallocated. *)
Definition fresh_after (w : world) (r : option GtkWidget) : GtkWidget :=
  match r with
  | Some _ => Pos.succ (next_widget w)
  | None => next_widget w
  end.

(** ** Further observations *)

(** The parameter a binder call names. *)
Definition param_of (c : binder_call) : string :=
  match c with
  | bind_slider param | bind_choice_list param | bind_toggle param => param
  end.

(** A binder call that ends in a placeholder: the name is unknown, or,
    for the choice-list and toggle binders, the field is of a kind the
    binder does not take. *)
Definition unbindable (w : world) (self : mod_id) (c : binder_call) : bool :=
  match c, get_f (so (modules w self)) (param_of c) with
  | _, None => true
  | bind_slider _, Some _ => false
  | bind_choice_list _, Some f =>
      negb (type_is f DT_INTROSPECTION_TYPE_ENUM || type_is f DT_INTROSPECTION_TYPE_INT
            || type_is f DT_INTROSPECTION_TYPE_UINT || type_is f DT_INTROSPECTION_TYPE_BOOL)
  | bind_toggle _, Some f => negb (type_is f DT_INTROSPECTION_TYPE_BOOL)
  end.

(** A returned control that is NULL. *)
Definition is_null (r : option GtkWidget) : bool :=
  match r with
  | Some _ => false
  | None => true
  end.

(** A binder call that makes no control: the slider binder on a field that
    exists and is neither float nor int (lines 122-176 leave [slider] at
    NULL). *)
Definition makes_no_control (w : world) (self : mod_id) (c : binder_call) : bool :=
  match c with
  | bind_slider param =>
      match get_f (so (modules w self)) param with
      | Some f =>
          negb (type_is f DT_INTROSPECTION_TYPE_FLOAT
                || type_is f DT_INTROSPECTION_TYPE_INT)
      | None => false
      end
  | bind_choice_list _ | bind_toggle _ => false
  end.

(** The kinds of field a callback reads correctly: each callback reads its
    field through a pointer of one C type. *)
Definition handler_fits (h : Closure.t) (t : dt_introspection_type_t) : bool :=
  match h, t with
  | Closure.generic_slider_float_callback _, DT_INTROSPECTION_TYPE_FLOAT
  | Closure.generic_slider_int_callback _, DT_INTROSPECTION_TYPE_INT
  | Closure.generic_combobox_enum_callback _, DT_INTROSPECTION_TYPE_ENUM
  | Closure.generic_combobox_enum_callback _, DT_INTROSPECTION_TYPE_INT
  | Closure.generic_combobox_enum_callback _, DT_INTROSPECTION_TYPE_UINT
  | Closure.generic_combobox_bool_callback _, DT_INTROSPECTION_TYPE_BOOL
  | Closure.generic_toggle_callback _ _, DT_INTROSPECTION_TYPE_BOOL => true
  | _, _ => false
  end.

(** The closure of a connection. *)
Definition closure_of (c : Call.t) : option Closure.t :=
  match c with
  | Call.g_signal_connect _ _ h | Call.g_signal_connect_data_g_free _ _ h => Some h
  | _ => None
  end.

(** A call that adds a choice to a combobox. *)
Definition is_choice (c : Call.t) : bool :=
  match c with
  | Call.dt_bauhaus_combobox_add _ _
  | Call.dt_bauhaus_combobox_add_full _ _ _ _ _ => true
  | _ => false
  end.

(** What a run may not touch besides the heap, the containers and the log:
    the toolkit's answers and the platform. *)
Definition same_surroundings (w w' : world) : Prop :=
  reset w' = reset w
  /\ slider_value w' = slider_value w
  /\ combobox_data w' = combobox_data w
  /\ combobox_selected w' = combobox_selected w
  /\ toggle_active w' = toggle_active w
  /\ bauhaus_module w' = bauhaus_module w
  /\ gettext w' = gettext w
  /\ libm_log10f w' = libm_log10f w
  /\ libm_powf w' = libm_powf w.

(** Two modules that differ at most by their container. *)
Definition same_module_data (m m' : dt_iop_module_t) : Prop :=
  so m' = so m /\ params m' = params m /\ gui_changed m' = gui_changed m.

(** The heap a callback leaves: the field written, then the hook applied
    when the value changed and the module has one. *)
Definition heap_after (w : world) (widget : GtkWidget) (h : Closure.t) : heap_t :=
  let hp := upd (heap w) (field_of h) (cell_of (incoming w widget h)) in
  if differs (incoming w widget h) (previous_of w h) then
    match gui_changed (modules w (target w widget h)) with
    | Some hook => hook (target w widget h) widget (previous_of w h) hp
    | None => hp
    end
  else hp.

(** The calls a callback adds. *)
Definition calls_after (w : world) (widget : GtkWidget) (h : Closure.t)
  : list Call.t :=
  if differs (incoming w widget h) (previous_of w h) then
    hook_calls w (target w widget h) widget (previous_of w h)
    ++ [Call.dt_iop_color_picker_reset (target w widget h) true;
        Call.dt_dev_add_history_item (target w widget h) true]
  else [].

(** ** More sample worlds *)

Module Plain.

(** The sample module without a hook. *)
Definition the_module : dt_iop_module_t :=
  {| so := Sample.the_so; params := 4096; widget := None; gui_changed := None |}.

Definition w0 : world := set_modules (fun _ => the_module) Sample.w0.

(** The same, with sliders that report NaN. *)
Definition w_nan : world := {|
  heap := Sample.the_heap;
  modules := fun _ => the_module;
  reset := 0;
  slider_value := fun _ => Sample.nan;
  combobox_data := fun _ => Some 20;
  combobox_selected := fun _ => 1;
  toggle_active := fun _ => 1;
  bauhaus_module := fun _ => 0%nat;
  gettext := fun s => s;
  libm_log10f := Sample.table_log10f;
  libm_powf := Sample.table_powf;
  next_widget := 1%positive;
  calls := []
|}.

End Plain.

(** * Properties *)

Local Open Scope list_scope.

(** ** The log *)

Lemma new_calls_app (w w' : world) (l : list Call.t) :
  calls w' = calls w ++ l -> new_calls w w' = l.
Proof.
  unfold new_calls; intros ->.
  induction (calls w) as [|c cs IH]; simpl; [reflexivity | exact IH].
Qed.

Lemma upd_same {V : Type} (f : Z -> V) (a : Z) (v : V) : upd f a v a = v.
Proof. unfold upd; now rewrite Z.eqb_refl. Qed.

(** ** Running a callback *)

Ltac unfold_prog :=
  cbv [emit generic_slider_float_callback generic_slider_int_callback
       generic_combobox_enum_callback generic_combobox_bool_callback
       generic_toggle_callback process_changed_value call_gui_changed
       dt_iop_color_picker_reset dt_dev_add_history_item
       dt_bauhaus_slider_get dt_bauhaus_combobox_get_data
       dt_bauhaus_combobox_get gtk_toggle_button_get_active
       load_float load_int store_float store_int get_module
       bind ret gets modify call exec eval fst snd
       set_heap set_calls set_modules set_next_widget
       heap modules reset slider_value combobox_data combobox_selected
       toggle_active bauhaus_module gettext libm_log10f libm_powf
       next_widget calls].

Ltac run_prog :=
  repeat (unfold_prog; try change (negb (0 =? 0)) with false;
          cbv beta iota zeta; rewrite ?upd_same).

Lemma emit_run (w : world) (widget : GtkWidget) (h : Closure.t) :
  reset w = 0 ->
  emit widget h w =
    (tt, if differs (incoming w widget h) (previous_of w h)
         then reported w widget h else written w widget h).
Proof.
  intros Hr. destruct w as [hp ms r sv cd cs ta bm gt l10 pw nw cl].
  simpl in Hr; subst r.
  destruct h as [field|field|field|field|module param];
    cbv [reported written differs incoming previous_of field_of target cell_of];
    run_prog.
  - destruct (IEEE32.fne (sv widget) (hp field)); run_prog; [|reflexivity].
    destruct (gui_changed (ms (bm widget))); reflexivity.
  - destruct (negb _); run_prog; [|reflexivity].
    destruct (gui_changed (ms (bm widget))); reflexivity.
  - destruct (cd widget) as [d|]; run_prog;
      (destruct (negb _); run_prog; [|reflexivity]);
      destruct (gui_changed (ms (bm widget))); reflexivity.
  - destruct (negb _); run_prog; [|reflexivity].
    destruct (gui_changed (ms (bm widget))); reflexivity.
  - destruct (negb _); run_prog; [|reflexivity].
    destruct (gui_changed (ms module)); reflexivity.
Qed.

(** ** Running a binder *)

Ltac unfold_binder :=
  cbv [dt_bauhaus_slider_from_params dt_bauhaus_combobox_from_params
       dt_bauhaus_toggle_from_params run_binder self_widget
       dt_bauhaus_slider_new_with_range_and_feedback dt_bauhaus_slider_new
       dt_bauhaus_combobox_new gtk_check_button_new_with_label gtk_box_new
       dt_bauhaus_slider_set_format dt_bauhaus_widget_set_label
       dt_bauhaus_combobox_add dt_bauhaus_combobox_add_full
       g_signal_connect g_signal_connect_data_g_free gtk_box_pack_start
       set_self_widget new_widget attached logged fresh_after
       slider_calls combobox_calls toggle_calls binder_calls arith_of
       type_is type_eqb type header Enum_values orb].

Ltac run_binder_prog := repeat (unfold_binder; run_prog).

Lemma set_calls_nil (w : world) : set_calls (calls w ++ []) w = w.
Proof. destruct w; cbv [set_calls calls]; cbn [heap]; now rewrite app_nil_r. Qed.

Lemma add_enum_values_run (combobox : GtkWidget)
    (values : list Tuple.dt_introspection_type_enum_tuple_t) (w : world) :
  add_enum_values combobox values w =
    (tt, set_calls (calls w ++ map (enum_choice w combobox) (enum_table values)) w).
Proof.
  revert w; induction values as [|t values IH]; intros w; simpl.
  - now rewrite set_calls_nil.
  - destruct (Tuple.name t); simpl.
    + run_binder_prog. rewrite IH. destruct w; run_binder_prog.
      cbv [enum_choice gettext]. now rewrite <- app_assoc.
    + now rewrite set_calls_nil.
Qed.

Ltac split_field w self param :=
  let Hf := fresh "Hf" in
  destruct (get_f (so (modules w self)) param)
    as [[h min max|h min max|h min max|h|h values|h]|] eqn:Hf.

Ltac run_cases w self param :=
  cbv [dt_bauhaus_slider_from_params dt_bauhaus_combobox_from_params
       dt_bauhaus_toggle_from_params slider_calls combobox_calls toggle_calls
       bind get_module gets];
  split_field w self param;
  destruct w as [hp ms r sv cd cs ta bm gt l10 pw nw cl];
  run_binder_prog.

Ltac norm_app := rewrite <- ?app_assoc; cbn [app].

Ltac finish_attached ms self :=
  destruct (widget (ms self)); run_binder_prog; norm_app; reflexivity.

Lemma toggle_run (self : mod_id) (param : string) (w : world) :
  dt_bauhaus_toggle_from_params self param w =
    (Some (next_widget w),
     attached self (Some (next_widget w))
       (logged (toggle_calls w self param) (Pos.succ (next_widget w)) w)).
Proof.
  run_cases w self param; finish_attached ms self.
Qed.

Lemma combobox_run (self : mod_id) (param : string) (w : world) :
  dt_bauhaus_combobox_from_params self param w =
    (Some (next_widget w),
     attached self (Some (next_widget w))
       (logged (combobox_calls w self param) (Pos.succ (next_widget w)) w)).
Proof.
  run_cases w self param; try finish_attached ms self.
  destruct values as [values|]; [rewrite add_enum_values_run|];
    run_binder_prog; cbv [enum_choice]; run_prog;
    destruct (widget (ms self)); run_binder_prog; norm_app;
    rewrite <- ?app_assoc; reflexivity.
Qed.

Lemma slider_run (self : mod_id) (param : string) (w : world) :
  dt_bauhaus_slider_from_params self param w =
    (fst (slider_calls w self param),
     attached self (fst (slider_calls w self param))
       (logged (snd (slider_calls w self param))
          (fresh_after w (fst (slider_calls w self param))) w)).
Proof.
  run_cases w self param; try finish_attached ms self.
  change (@flt _ (IEEE32.arith l10 pw) min (@of_int _ (IEEE32.arith l10 pw) 0))
    with (negative_min min).
  change (negb ("" =? "")%string) with false.
  destruct (@slider_step_digits float (IEEE32.arith l10 pw) min max)
    as [step digits].
  destruct (negative_min min); run_binder_prog; finish_attached ms self.
Qed.

Lemma run_binder_run (self : mod_id) (c : binder_call) (w : world) :
  run_binder self c w =
    (fst (binder_calls w self c),
     attached self (fst (binder_calls w self c))
       (logged (snd (binder_calls w self c))
          (fresh_after w (fst (binder_calls w self c))) w)).
Proof.
  destruct c as [param|param|param]; cbn [run_binder binder_calls fst snd fresh_after].
  - apply slider_run.
  - apply combobox_run.
  - apply toggle_run.
Qed.

(** ** What a binder call does to the world *)

Lemma attached_logged (self : mod_id) (r : option GtkWidget)
    (body : list Call.t) (fresh : GtkWidget) (w : world) :
  let w' := attached self r (logged body fresh w) in
  calls w' = calls w ++ body ++ attach_calls (widget (modules w self)) fresh r
  /\ heap w' = heap w
  /\ reset w' = reset w
  /\ widget (modules w' self) = Some (container_of (widget (modules w self)) fresh)
  /\ (forall m, m <> self -> modules w' m = modules w m).
Proof.
  destruct w as [hp ms rs sv cd cs ta bm gt l10 pw nw cl].
  cbv [attach_calls container_of]. run_binder_prog.
  destruct (widget (ms self)) as [box|] eqn:Hw; run_binder_prog;
    rewrite <- ?app_assoc; cbn [app]; repeat split; auto.
  - unfold upd_module. now rewrite Nat.eqb_refl.
  - intros m Hm. unfold upd_module. apply Nat.eqb_neq in Hm. now rewrite Hm.
Qed.

(** One binder call: the control it returns, the calls it adds and what
    it leaves alone. *)
Lemma run_binder_effect (self : mod_id) (c : binder_call) (w : world) :
  let r := fst (binder_calls w self c) in
  let body := snd (binder_calls w self c) in
  let w' := exec (run_binder self c) w in
  eval (run_binder self c) w = r
  /\ calls w' = calls w ++ body
                ++ attach_calls (widget (modules w self)) (fresh_after w r) r
  /\ heap w' = heap w
  /\ reset w' = reset w
  /\ widget (modules w' self)
     = Some (container_of (widget (modules w self)) (fresh_after w r))
  /\ (forall m, m <> self -> modules w' m = modules w m).
Proof.
  cbv zeta. unfold exec, eval. rewrite run_binder_run. cbn [fst snd].
  split; [reflexivity|]. apply attached_logged.
Qed.

Lemma enum_choices_quiet (w : world) (c : GtkWidget)
    (l : list Tuple.dt_introspection_type_enum_tuple_t) (p : Call.t -> bool) :
  (forall t, p (enum_choice w c t) = false) ->
  filter p (map (enum_choice w c) l) = [].
Proof.
  intros Hp. induction l as [|t l IH]; simpl; [reflexivity|].
  now rewrite Hp.
Qed.

(** The calls a binder makes before it attaches the control create or
    pack no container and report no change. *)
Lemma binder_calls_quiet (w : world) (self : mod_id) (c : binder_call) :
  filter is_container_call (snd (binder_calls w self c)) = []
  /\ filter is_change_call (snd (binder_calls w self c)) = [].
Proof.
  destruct c as [param|param|param];
    cbv [binder_calls slider_calls combobox_calls toggle_calls snd];
    destruct (get_f (so (modules w self)) param)
      as [[h min max|h min max|h min max|h|h values|h]|];
    try (split; reflexivity).
  - destruct (negative_min min); split; reflexivity.
  - cbn [filter is_container_call is_change_call is_hook is_picker_reset
         is_history orb].
    rewrite !filter_app, !enum_choices_quiet by reflexivity.
    split; reflexivity.
Qed.

Lemma attach_calls_container (existing : option GtkWidget) (fresh : GtkWidget)
    (r : option GtkWidget) :
  filter is_container_call (attach_calls existing fresh r)
    = attach_calls existing fresh r
  /\ filter is_change_call (attach_calls existing fresh r) = [].
Proof. destruct existing; split; reflexivity. Qed.

Lemma run_binders_cons (self : mod_id) (c : binder_call)
    (cs : list binder_call) (w : world) :
  eval (run_binders self (c :: cs)) w
    = eval (run_binder self c) w
      :: eval (run_binders self cs) (exec (run_binder self c) w)
  /\ exec (run_binders self (c :: cs)) w
     = exec (run_binders self cs) (exec (run_binder self c) w).
Proof.
  unfold eval, exec; cbn [run_binders]; unfold bind, ret.
  destruct (run_binder self c w) as [r w1]; cbn [fst snd].
  destruct (run_binders self cs w1) as [rs w2]; split; reflexivity.
Qed.

Lemma run_binders_effect (self : mod_id) (cs : list binder_call) :
  forall w : world,
  let rs := eval (run_binders self cs) w in
  let w' := exec (run_binders self cs) w in
  exists l,
    calls w' = calls w ++ l
    /\ heap w' = heap w
    /\ reset w' = reset w
    /\ filter is_change_call l = []
    /\ match cs with
       | [] => l = [] /\ widget (modules w' self) = widget (modules w self)
       | _ :: _ =>
           exists box,
             widget (modules w' self) = Some box
             /\ (forall b0, widget (modules w self) = Some b0 -> box = b0)
             /\ filter is_container_call l
                = container_log (widget (modules w self)) box rs
       end.
Proof.
  induction cs as [|c cs IH]; intros w; cbv zeta.
  - exists []. cbv [run_binders eval exec ret fst snd].
    rewrite app_nil_r. repeat split; reflexivity.
  - destruct (run_binders_cons self c cs w) as [-> ->].
    destruct (run_binder_effect self c w) as (Hr & Hc & Hh & Hs & Hw & _).
    destruct (binder_calls_quiet w self c) as [Hq1 Hq2].
    set (r := fst (binder_calls w self c)) in *.
    set (body := snd (binder_calls w self c)) in *.
    set (w1 := exec (run_binder self c) w) in *.
    destruct (attach_calls_container (widget (modules w self)) (fresh_after w r) r)
      as [Ha1 Ha2].
    destruct (IH w1) as (l & Hc' & Hh' & Hs' & Hq' & Hm). cbv zeta in Hm.
    exists ((body ++ attach_calls (widget (modules w self)) (fresh_after w r) r) ++ l).
    rewrite Hc', Hc, Hh', Hh, Hs', Hs, Hr, <- !app_assoc.
    repeat split; try reflexivity.
    + rewrite !filter_app, Hq2, Ha2, Hq'. reflexivity.
    + exists (container_of (widget (modules w self)) (fresh_after w r)).
      rewrite !filter_app, Hq1, Ha1. cbn [app].
      destruct cs as [|c' cs'].
      * destruct Hm as [-> Hm]. rewrite Hm, Hw.
        cbv [run_binders eval ret fst]. repeat split.
        -- intros b0 Hb. now rewrite Hb.
        -- unfold container_log, attach_calls, container_of.
           destruct (widget (modules w self)); reflexivity.
      * destruct Hm as (box & Hb & Hsame & Hl).
        specialize (Hsame _ Hw). subst box.
        rewrite Hb, Hl, Hw. repeat split.
        -- intros b0 Hb0. now rewrite Hb0.
        -- unfold container_log, attach_calls, container_of.
           destruct (widget (modules w self)); reflexivity.
Qed.

(** ** The change callbacks *)

(** C2.  A change event that arrives while [darktable.gui->reset] is set
    leaves the world as it was: no field is written, no hook is called, the
    colour picker is not reset and no history item is added, whichever of
    the five callbacks is connected. *)
Theorem reset_suppresses_callbacks (w : world) (widget : GtkWidget) (h : Closure.t) :
  reset w <> 0 -> emit widget h w = (tt, w).
Proof.
  intros Hr. apply Z.eqb_neq in Hr.
  destruct h; cbv [emit generic_slider_float_callback generic_slider_int_callback
    generic_combobox_enum_callback generic_combobox_bool_callback
    generic_toggle_callback bind gets ret]; now rewrite Hr.
Qed.

Lemma reset_suppresses_callbacks_witness :
  reset Sample.w_reset <> 0 /\
  emit 7%positive (Closure.generic_toggle_callback 0%nat 4104) Sample.w_reset
    = (tt, Sample.w_reset).
Proof.
  split; [simpl; lia | apply reset_suppresses_callbacks; simpl; lia].
Defined.

(** C3.  Outside a reset, when the value read from the control equals the
    previous value of the field under C's [==] at the type of the field
    (IEEE equality for [float], integer equality for [int] and [gboolean]),
    the callback writes the value into the field and does nothing else: the
    log of calls is unchanged, so no hook, no colour-picker reset and no
    history item. *)
Theorem unchanged_value_is_written_silently
    (w : world) (widget : GtkWidget) (h : Closure.t) :
  reset w = 0 ->
  differs (incoming w widget h) (previous_of w h) = false ->
  emit widget h w = (tt, written w widget h)
  /\ heap (written w widget h) (field_of h) = cell_of (incoming w widget h)
  /\ (forall a, a <> field_of h -> heap (written w widget h) a = heap w a)
  /\ calls (written w widget h) = calls w.
Proof.
  intros Hr Hd. rewrite (emit_run _ _ _ Hr), Hd.
  destruct w; cbv [written set_heap heap calls]; repeat split.
  - apply upd_same.
  - intros a Ha. unfold upd. apply Z.eqb_neq in Ha. now rewrite Ha.
Qed.

Lemma unchanged_value_is_written_silently_witness :
  emit 7%positive (Closure.generic_slider_float_callback 4096) Sample.w0
    = (tt, written Sample.w0 7%positive (Closure.generic_slider_float_callback 4096)).
Proof.
  apply (unchanged_value_is_written_silently Sample.w0 7%positive
           (Closure.generic_slider_float_callback 4096)); reflexivity.
Defined.

(** C1, as amended.  Outside a reset, when the value read from the control
    differs from the previous value of the field, the callback calls the
    hook of the module if there is one, with the control and the previous
    value, then resets the colour picker once, then adds one history item:
    these are all the calls it makes, in this order. *)
Theorem changed_value_resets_picker_then_commits
    (w : world) (widget : GtkWidget) (h : Closure.t) :
  reset w = 0 ->
  differs (incoming w widget h) (previous_of w h) = true ->
  let l := new_calls w (exec (emit widget h) w) in
  l = hook_calls w (target w widget h) widget (previous_of w h)
      ++ [Call.dt_iop_color_picker_reset (target w widget h) true;
          Call.dt_dev_add_history_item (target w widget h) true]
  /\ count is_picker_reset l = 1%nat
  /\ count is_history l = 1%nat
  /\ before is_picker_reset is_history l = true
  /\ (gui_changed (modules w (target w widget h)) <> None ->
      count is_hook l = 1%nat /\ before is_hook is_picker_reset l = true).
Proof.
  intros Hr Hd. cbv zeta.
  assert (Hl : new_calls w (exec (emit widget h) w)
               = hook_calls w (target w widget h) widget (previous_of w h)
                 ++ [Call.dt_iop_color_picker_reset (target w widget h) true;
                     Call.dt_dev_add_history_item (target w widget h) true]).
  { unfold exec. rewrite (emit_run _ _ _ Hr), Hd.
    apply new_calls_app.
    destruct w as [hp ms r sv cd cs ta bm gt l10 pw nw cl].
    cbv [reported written hook_calls set_heap set_calls calls modules snd].
    destruct (gui_changed _); cbv [calls]; rewrite <- ?app_assoc; reflexivity. }
  rewrite Hl. unfold hook_calls.
  destruct (gui_changed (modules w (target w widget h)));
    (do 4 (split; [reflexivity|])); intros Hn;
    [split; reflexivity | now elim Hn].
Qed.

Lemma changed_value_resets_picker_then_commits_witness :
  new_calls Sample.w0
    (exec (emit 7%positive (Closure.generic_toggle_callback 0%nat 4104)) Sample.w0)
  = [Call.gui_changed 0%nat 7%positive (previous_int 0);
     Call.dt_iop_color_picker_reset 0%nat true;
     Call.dt_dev_add_history_item 0%nat true].
Proof.
  destruct (changed_value_resets_picker_then_commits Sample.w0 7%positive
              (Closure.generic_toggle_callback 0%nat 4104) eq_refl eq_refl)
    as [H _].
  exact H.
Defined.

(** C1, as stated, fails: the history item does not come before the reset
    of the colour picker.  On the sample world the toggle at offset 8 goes
    from 0 to 1; the reset of the picker is the second call, the history
    item the third. *)
Lemma commit_before_reset_counterexample :
  reset Sample.w0 = 0
  /\ differs (incoming Sample.w0 7%positive (Closure.generic_toggle_callback 0%nat 4104))
       (previous_of Sample.w0 (Closure.generic_toggle_callback 0%nat 4104)) = true
  /\ index_of is_picker_reset
       (new_calls Sample.w0
          (exec (emit 7%positive (Closure.generic_toggle_callback 0%nat 4104)) Sample.w0))
     = Some 1%nat
  /\ index_of is_history
       (new_calls Sample.w0
          (exec (emit 7%positive (Closure.generic_toggle_callback 0%nat 4104)) Sample.w0))
     = Some 2%nat
  /\ before is_history is_picker_reset
       (new_calls Sample.w0
          (exec (emit 7%positive (Closure.generic_toggle_callback 0%nat 4104)) Sample.w0))
     = false.
Proof. repeat split; vm_compute; reflexivity. Qed.

(** ** The binders *)

(** The widget counter after the common tail of the binders: one more
    widget when the container had to be made.  The descriptors stay. *)
Lemma attached_logged_next (self : mod_id) (r : option GtkWidget)
    (body : list Call.t) (fresh : GtkWidget) (w : world) :
  let w' := attached self r (logged body fresh w) in
  next_widget w'
    = match widget (modules w self) with
      | Some _ => fresh
      | None => Pos.succ fresh
      end
  /\ (forall m, so (modules w' m) = so (modules w m)).
Proof.
  destruct w as [hp ms rs sv cd cs ta bm gt l10 pw nw cl].
  run_binder_prog.
  destruct (widget (ms self)) as [box|] eqn:Hw; run_binder_prog;
    (split; [reflexivity|]); intros m; try reflexivity.
  unfold upd_module. destruct (Nat.eqb m self) eqn:Hm; [|reflexivity].
  apply Nat.eqb_eq in Hm. now subst m.
Qed.

(** The control of one binder call: NULL exactly when the call makes no
    control, a widget that did not exist before otherwise. *)
Lemma run_binder_control (self : mod_id) (c : binder_call) (w : world) :
  let r := eval (run_binder self c) w in
  let w' := exec (run_binder self c) w in
  is_null r = makes_no_control w self c
  /\ (next_widget w <= next_widget w')%positive
  /\ (forall s, r = Some s -> (next_widget w <= s < next_widget w')%positive)
  /\ (forall m, so (modules w' m) = so (modules w m)).
Proof.
  cbv zeta. unfold eval, exec. rewrite run_binder_run. cbn [fst snd].
  destruct (attached_logged_next self (fst (binder_calls w self c))
              (snd (binder_calls w self c))
              (fresh_after w (fst (binder_calls w self c))) w) as [Hn Hso].
  rewrite Hn. split; [|split; [|split; [|exact Hso]]].
  - destruct c as [param|param|param]; cbn [binder_calls fst is_null makes_no_control];
      try reflexivity.
    unfold slider_calls.
    destruct (get_f (so (modules w self)) param) as [f|]; [|reflexivity].
    destruct f; reflexivity.
  - destruct (fst (binder_calls w self c)), (widget (modules w self));
      cbn [fresh_after]; lia.
  - intros s Hs. rewrite Hs. cbn [fresh_after].
    assert (s = next_widget w) as ->.
    { destruct c as [param|param|param]; cbn [binder_calls fst] in Hs;
        try congruence.
      unfold slider_calls in Hs.
      destruct (get_f (so (modules w self)) param) as [f|];
        [destruct f|]; cbn [fst] in Hs; congruence. }
    destruct (widget (modules w self)); lia.
Qed.

Lemma makes_no_control_ext (w w' : world) (self : mod_id) (c : binder_call) :
  (forall m, so (modules w' m) = so (modules w m)) ->
  makes_no_control w' self c = makes_no_control w self c.
Proof. intros H. unfold makes_no_control. now rewrite H. Qed.

(** The controls of a sequence of binder calls. *)
Lemma run_binders_controls (self : mod_id) (cs : list binder_call) :
  forall w : world,
  let rs := eval (run_binders self cs) w in
  let w' := exec (run_binders self cs) w in
  map is_null rs = map (makes_no_control w self) cs
  /\ (next_widget w <= next_widget w')%positive
  /\ (forall s, In (Some s) rs -> (next_widget w <= s < next_widget w')%positive)
  /\ (forall m, so (modules w' m) = so (modules w m)).
Proof.
  induction cs as [|c cs IH]; intros w; cbv zeta.
  - cbv [run_binders eval exec ret fst snd map].
    split; [reflexivity|]. split; [lia|]. split; [|reflexivity].
    intros s Hs. destruct Hs.
  - destruct (run_binders_cons self c cs w) as [-> ->].
    destruct (run_binder_control self c w) as (A1 & A2 & A3 & A4).
    destruct (IH (exec (run_binder self c) w)) as (B1 & B2 & B3 & B4).
    split; [|split; [|split]].
    + cbn [map]. rewrite A1, B1. f_equal.
      apply map_ext. intros c'. now apply makes_no_control_ext.
    + lia.
    + intros s [Hs|Hs].
      * specialize (A3 s Hs). lia.
      * specialize (B3 s Hs). lia.
    + intros m. now rewrite B4, A4.
Qed.

(** C9.  Along any sequence of binder calls on a module, the container of
    the module is created once, by the first call, when the module had
    none, and never again, and every call packs into that container what
    it returns: the container calls of the run are the creation (only when
    the container was absent) followed by one [gtk_box_pack_start] per
    call, in order.  What a call returns and packs is a widget that did
    not exist before the run, except for the slider binder on a field that
    exists and is neither float nor int: that call returns NULL, and NULL
    is what it packs, so no control is appended for it. *)
Theorem container_packs_what_binders_return (self : mod_id)
    (cs : list binder_call) (w : world) :
  let rs := eval (run_binders self cs) w in
  let w' := exec (run_binders self cs) w in
  map is_null rs = map (makes_no_control w self) cs
  /\ (forall s, In (Some s) rs -> (next_widget w <= s < next_widget w')%positive)
  /\ match cs with
     | [] => new_calls w w' = [] /\ widget (modules w' self) = widget (modules w self)
     | _ :: _ =>
         exists box,
           widget (modules w' self) = Some box
           /\ (forall b0, widget (modules w self) = Some b0 -> box = b0)
           /\ filter is_container_call (new_calls w w')
              = match widget (modules w self) with
                | Some _ => []
                | None => [Call.gtk_box_new box GTK_ORIENTATION_VERTICAL DT_BAUHAUS_SPACE]
                end ++ map (Call.gtk_box_pack_start box) rs
     end.
Proof.
  cbv zeta.
  destruct (run_binders_controls self cs w) as (Hn & _ & Hf & _).
  destruct (run_binders_effect self cs w) as (l & Hc & _ & _ & _ & Hm).
  split; [exact Hn|]. split; [exact Hf|].
  rewrite (new_calls_app _ _ _ Hc). destruct cs; exact Hm.
Qed.

(** On the sample module: a toggle bound to the boolean field "enabled",
    then a slider asked for the same field.  The container is made once;
    the checkbox is packed into it, and then NULL. *)
Example null_is_packed_for_a_boolean_slider :
  let cs := [bind_toggle "enabled"; bind_slider "enabled"] in
  eval (run_binders 0%nat cs) Sample.w0 = [Some 1%positive; None]
  /\ filter is_container_call
       (new_calls Sample.w0 (exec (run_binders 0%nat cs) Sample.w0))
     = [Call.gtk_box_new 2%positive GTK_ORIENTATION_VERTICAL DT_BAUHAUS_SPACE;
        Call.gtk_box_pack_start 2%positive (Some 1%positive);
        Call.gtk_box_pack_start 2%positive None].
Proof. split; vm_compute; reflexivity. Qed.

(** C10.  A binder call, whatever the parameter name, and any sequence of
    binder calls, leaves the heap (hence the parameter block) and the reset
    flag as they were, and logs no hook call, no reset of the colour picker
    and no history item. *)
Theorem binders_only_read (self : mod_id) (cs : list binder_call) (w : world) :
  let w' := exec (run_binders self cs) w in
  heap w' = heap w
  /\ reset w' = reset w
  /\ filter is_change_call (new_calls w w') = [].
Proof.
  cbv zeta. destruct (run_binders_effect self cs w) as (l & Hc & Hh & Hs & Hq & _).
  rewrite (new_calls_app _ _ _ Hc). auto.
Qed.

Lemma binder_new_calls (self : mod_id) (c : binder_call) (w : world) :
  eval (run_binder self c) w = fst (binder_calls w self c)
  /\ new_calls w (exec (run_binder self c) w)
     = snd (binder_calls w self c)
       ++ attach_calls (widget (modules w self))
            (fresh_after w (fst (binder_calls w self c)))
            (fst (binder_calls w self c)).
Proof.
  destruct (run_binder_effect self c w) as (Hr & Hc & _).
  split; [exact Hr | exact (new_calls_app _ _ _ Hc)].
Qed.

Lemma slider_step_digits_amended {F : Type} {A : FloatArith F} (min max : F) :
  slider_step_digits min max = amended_step_digits min max.
Proof. reflexivity. Qed.

(** C4, as amended.  For a float field with range [min, max] the slider
    binder first constructs the slider over [min, max] with the current
    value of the field as default and with the step and the digits of the
    rule that adds a tenth before the floor: [top = min(max-min,
    max(|min|,|max|))]; step 1 and 2 digits when [top >= 100]; otherwise
    [e = floor(log10(top/100) + 0.1)], step [10^e], times 5 when
    [log10(top/100) - e > 0.5], and 2 digits unless [e < -2], then [-e]. *)
Theorem float_slider_step_and_digits (w : world) (self : mod_id) (param : string)
    (h : dt_introspection_type_header_t) (min max : float) :
  get_f (so (modules w self)) param = Some (Float h min max) ->
  exists rest,
    new_calls w (exec (dt_bauhaus_slider_from_params self param) w)
    = Call.dt_bauhaus_slider_new_with_range_and_feedback (next_widget w) self
        min max
        (fst (amended_step_digits (A := arith_of w) min max))
        (heap w (get_p (so (modules w self)) (params (modules w self)) param))
        (snd (amended_step_digits (A := arith_of w) min max)) 1
      :: rest.
Proof.
  intros Hf.
  destruct (binder_new_calls self (bind_slider param) w) as [_ Hl].
  cbn [run_binder binder_calls] in Hl. rewrite Hl.
  unfold slider_calls. rewrite Hf. cbn [fst snd app].
  rewrite slider_step_digits_amended. eexists; reflexivity.
Qed.

Lemma float_slider_step_and_digits_witness :
  exists rest,
    new_calls Sample.w0 (exec (dt_bauhaus_slider_from_params 0%nat "opacity") Sample.w0)
    = Call.dt_bauhaus_slider_new_with_range_and_feedback 1%positive 0%nat
        (IEEE32.of_Z 0) (IEEE32.of_Z 1)
        (fst (amended_step_digits (A := Sample.arith) (IEEE32.of_Z 0) (IEEE32.of_Z 1)))
        0
        (snd (amended_step_digits (A := Sample.arith) (IEEE32.of_Z 0) (IEEE32.of_Z 1))) 1
      :: rest.
Proof.
  apply (float_slider_step_and_digits Sample.w0 0%nat "opacity"
           (Sample.hdr "opacity" 28) (IEEE32.of_Z 0) (IEEE32.of_Z 1)).
  reflexivity.
Defined.

(** C7, as amended.  The slider binder constructs the slider with step 1
    for every integer field, and for every float field whose
    [top = min(max-min, max(|min|,|max|))] is at least 100. *)
Theorem wide_top_step_is_one (w : world) (self : mod_id) (param : string)
    (f : dt_introspection_field_t) :
  get_f (so (modules w self)) param = Some f ->
  match f with
  | Float _ min max => top_at_least_100 (A := arith_of w) min max = true
  | Int _ _ _ => True
  | _ => False
  end ->
  exists min max defval digits rest,
    new_calls w (exec (dt_bauhaus_slider_from_params self param) w)
    = Call.dt_bauhaus_slider_new_with_range_and_feedback (next_widget w) self
        min max (IEEE32.of_Z 1) defval digits 1
      :: rest.
Proof.
  intros Hf Hwide.
  destruct (binder_new_calls self (bind_slider param) w) as [_ Hl].
  cbn [run_binder binder_calls] in Hl. rewrite Hl.
  unfold slider_calls. rewrite Hf.
  destruct f as [h min max|h min max|h min max|h|h values|h]; try contradiction.
  - cbn [fst snd app]. unfold slider_step_digits.
    unfold top_at_least_100, range_top in Hwide. rewrite Hwide. cbn [fst snd].
    do 5 eexists; reflexivity.
  - cbn [fst snd app]. do 5 eexists; reflexivity.
Qed.

Lemma wide_top_step_is_one_witness :
  exists min max defval digits rest,
    new_calls Sample.w0 (exec (dt_bauhaus_slider_from_params 0%nat "angle") Sample.w0)
    = Call.dt_bauhaus_slider_new_with_range_and_feedback 1%positive 0%nat
        min max (IEEE32.of_Z 1) defval digits 1
      :: rest.
Proof.
  apply (wide_top_step_is_one Sample.w0 0%nat "angle"
           (Float (Sample.hdr "angle" 0) (IEEE32.of_Z (-180)) (IEEE32.of_Z 180)));
    vm_compute; reflexivity.
Defined.

(** What holds of the slider of an integer field: the range, the step 1
    and no digits are as declared; the default is the field read through a
    [float] pointer and converted to [int]. *)
Lemma int_slider_calls (w : world) (self : mod_id) (param : string)
    (h : dt_introspection_type_header_t) (min max : Z) :
  get_f (so (modules w self)) param = Some (Int h min max) ->
  exists rest,
    new_calls w (exec (dt_bauhaus_slider_from_params self param) w)
    = Call.dt_bauhaus_slider_new_with_range_and_feedback (next_widget w) self
        (IEEE32.of_Z min) (IEEE32.of_Z max) (IEEE32.of_Z 1)
        (IEEE32.of_Z
           (IEEE32.to_Z
              (heap w (get_p (so (modules w self)) (params (modules w self)) param))))
        0 1
      :: rest.
Proof.
  intros Hf.
  destruct (binder_new_calls self (bind_slider param) w) as [_ Hl].
  cbn [run_binder binder_calls] in Hl. rewrite Hl.
  unfold slider_calls. rewrite Hf. cbn [fst snd app]. eexists; reflexivity.
Qed.

(** An integer field that holds [0 <= n < 2^23] has the bits of a denormal
    [float]: read through a [float] pointer and truncated it is 0. *)
Lemma small_int_reads_as_zero (n : Z) : 0 <= n < 2 ^ 23 -> IEEE32.to_Z n = 0.
Proof.
  intros Hn. unfold IEEE32.to_Z, IEEE32.decode.
  rewrite Z.mod_small by lia.
  assert (Hs : Z.shiftr n 23 = 0).
  { rewrite Z.shiftr_div_pow2 by lia. apply Z.div_small; lia. }
  assert (Hm : Z.land n (2 ^ 23 - 1) = n).
  { change (2 ^ 23 - 1) with (Z.ones 23). rewrite Z.land_ones by lia.
    apply Z.mod_small; lia. }
  rewrite Hs, Hm. cbn [Z.land Z.eqb].
  destruct n as [|p|p]; [reflexivity| |lia].
  cbn [IEEE32.SFtrunc Z.leb Z.compare Z.opp].
  assert (Hz : Z.shiftr (Z.pos p) 149 = 0).
  { rewrite Z.shiftr_div_pow2 by lia. apply Z.div_small.
    split; [lia|]. apply Z.lt_trans with (2 ^ 23); [lia|]. reflexivity. }
  rewrite Hz. destruct (Z.testbit (Z.pos p) 31); reflexivity.
Qed.

(** Hence the slider of an integer field whose value is below [2^23] gets
    the default 0.0f, whatever the value. *)
Lemma int_slider_small_default_is_zero (w : world) (self : mod_id) (param : string)
    (h : dt_introspection_type_header_t) (min max : Z) :
  get_f (so (modules w self)) param = Some (Int h min max) ->
  0 <= heap w (get_p (so (modules w self)) (params (modules w self)) param) < 2 ^ 23 ->
  exists rest,
    new_calls w (exec (dt_bauhaus_slider_from_params self param) w)
    = Call.dt_bauhaus_slider_new_with_range_and_feedback (next_widget w) self
        (IEEE32.of_Z min) (IEEE32.of_Z max) (IEEE32.of_Z 1) (IEEE32.of_Z 0) 0 1
      :: rest.
Proof.
  intros Hf Hn. destruct (int_slider_calls w self param h min max Hf) as [rest Hl].
  exists rest. rewrite Hl, (small_int_reads_as_zero _ Hn). reflexivity.
Qed.

(** C5 fails on the code.  The integer field "iterations" of the sample
    module holds 5; the slider is constructed over [0, 10] with step 1 and
    no digits, but its default is 0.0f, not 5.0f: the 4 bytes of the field
    are read as a [float] (a denormal) and truncated. *)
Theorem int_slider_default_is_reinterpreted :
  eval (load_int 4100) Sample.w0 = 5
  /\ new_calls Sample.w0
       (exec (dt_bauhaus_slider_from_params 0%nat "iterations") Sample.w0)
     = [Call.dt_bauhaus_slider_new_with_range_and_feedback 1%positive 0%nat
          (IEEE32.of_Z 0) (IEEE32.of_Z 10) (IEEE32.of_Z 1) (IEEE32.of_Z 0) 0 1;
        Call.g_signal_connect 1%positive "value-changed"
          (Closure.generic_slider_int_callback 4100);
        Call.dt_bauhaus_widget_set_label (Some 1%positive) "iterations";
        Call.gtk_box_new 2%positive GTK_ORIENTATION_VERTICAL DT_BAUHAUS_SPACE;
        Call.gtk_box_pack_start 2%positive (Some 1%positive)]
  /\ IEEE32.of_Z 0 <> IEEE32.of_Z 5.
Proof.
  repeat split; try (vm_compute; reflexivity).
  vm_compute; discriminate.
Qed.

(** The slider binder on a field that is neither float nor int: no slider
    is made, NULL is labelled, packed and returned. *)
Lemma slider_mismatch_returns_null (w : world) (self : mod_id) (param : string)
    (f : dt_introspection_field_t) :
  get_f (so (modules w self)) param = Some f ->
  type_is f DT_INTROSPECTION_TYPE_FLOAT = false ->
  type_is f DT_INTROSPECTION_TYPE_INT = false ->
  eval (dt_bauhaus_slider_from_params self param) w = None
  /\ new_calls w (exec (dt_bauhaus_slider_from_params self param) w)
     = Call.dt_bauhaus_widget_set_label None (gettext w (description (header f)))
       :: attach_calls (widget (modules w self)) (next_widget w) None
  /\ filter is_connect
       (new_calls w (exec (dt_bauhaus_slider_from_params self param) w)) = [].
Proof.
  intros Hf Hfl Hin.
  destruct (binder_new_calls self (bind_slider param) w) as [Hr Hl].
  cbn [run_binder binder_calls] in Hr, Hl. rewrite Hr, Hl.
  unfold slider_calls. rewrite Hf.
  destruct f; try discriminate; cbn [fst snd app fresh_after];
    destruct (widget (modules w self)); repeat split; reflexivity.
Qed.

(** C6 fails on the code for the slider binder.  On the boolean field
    "enabled" of the sample module it returns NULL: no placeholder is made,
    the description (not a mismatch message) is set on NULL, and NULL is
    packed into the container. *)
Theorem slider_on_boolean_returns_null :
  eval (dt_bauhaus_slider_from_params 0%nat "enabled") Sample.w0 = None
  /\ new_calls Sample.w0
       (exec (dt_bauhaus_slider_from_params 0%nat "enabled") Sample.w0)
     = [Call.dt_bauhaus_widget_set_label None "enabled";
        Call.gtk_box_new 1%positive GTK_ORIENTATION_VERTICAL DT_BAUHAUS_SPACE;
        Call.gtk_box_pack_start 1%positive None].
Proof. split; vm_compute; reflexivity. Qed.

(** The other two binders do what C6 says: on a field of another kind
    they return a control labelled with the mismatch message and connect
    nothing. *)
Lemma combobox_mismatch_placeholder (w : world) (self : mod_id) (param : string)
    (f : dt_introspection_field_t) :
  get_f (so (modules w self)) param = Some f ->
  type f = DT_INTROSPECTION_TYPE_FLOAT \/ type f = DT_INTROSPECTION_TYPE_OPAQUE ->
  eval (dt_bauhaus_combobox_from_params self param) w = Some (next_widget w)
  /\ new_calls w (exec (dt_bauhaus_combobox_from_params self param) w)
     = [Call.dt_bauhaus_combobox_new (next_widget w) self;
        Call.dt_bauhaus_widget_set_label (Some (next_widget w))
          ("'" ++ param ++ "' is not an enum/int/bool/combobox parameter")%string]
       ++ attach_calls (widget (modules w self)) (Pos.succ (next_widget w))
            (Some (next_widget w))
  /\ filter is_connect
       (new_calls w (exec (dt_bauhaus_combobox_from_params self param) w)) = [].
Proof.
  intros Hf Ht.
  destruct (binder_new_calls self (bind_choice_list param) w) as [Hr Hl].
  cbn [run_binder binder_calls fst snd fresh_after] in Hr, Hl. rewrite Hr, Hl.
  unfold combobox_calls. rewrite Hf.
  destruct f; destruct Ht as [Ht|Ht]; try discriminate;
    destruct (widget (modules w self)); repeat split; reflexivity.
Qed.

Lemma toggle_mismatch_placeholder (w : world) (self : mod_id) (param : string)
    (f : dt_introspection_field_t) :
  get_f (so (modules w self)) param = Some f ->
  type_is f DT_INTROSPECTION_TYPE_BOOL = false ->
  eval (dt_bauhaus_toggle_from_params self param) w = Some (next_widget w)
  /\ new_calls w (exec (dt_bauhaus_toggle_from_params self param) w)
     = [Call.gtk_check_button_new_with_label (next_widget w)
          ("'" ++ param ++ "' is not a bool/togglebutton parameter")%string]
       ++ attach_calls (widget (modules w self)) (Pos.succ (next_widget w))
            (Some (next_widget w))
  /\ filter is_connect
       (new_calls w (exec (dt_bauhaus_toggle_from_params self param) w)) = [].
Proof.
  intros Hf Ht.
  destruct (binder_new_calls self (bind_toggle param) w) as [Hr Hl].
  cbn [run_binder binder_calls fst snd fresh_after] in Hr, Hl. rewrite Hr, Hl.
  unfold toggle_calls. rewrite Hf.
  destruct f; try discriminate;
    destruct (widget (modules w self)); repeat split; reflexivity.
Qed.

(** C8.  On a boolean field the choice-list binder adds exactly the two
    choices "no" then "yes", translated, and connects the boolean callback
    on the field.  On an enumeration field it adds one choice per row of
    the table, in the order of the table, with the translated description
    as text and the value of the row as data, and connects the enum
    callback on the field.  The enum callback stores the data of the
    selected entry when there is one and the index of the selection
    otherwise. *)
Theorem choice_list_population (w : world) (self : mod_id) (param : string)
    (f : dt_introspection_field_t) :
  get_f (so (modules w self)) param = Some f ->
  let c := next_widget w in
  let p := params (modules w self) in
  let l := new_calls w (exec (dt_bauhaus_combobox_from_params self param) w) in
  let tail := attach_calls (widget (modules w self)) (Pos.succ c) (Some c) in
  eval (dt_bauhaus_combobox_from_params self param) w = Some c
  /\ match f with
     | Bool h =>
         l = [Call.dt_bauhaus_combobox_new c self;
              Call.dt_bauhaus_widget_set_label (Some c) (gettext w (description h));
              Call.dt_bauhaus_combobox_add c (gettext w "no");
              Call.dt_bauhaus_combobox_add c (gettext w "yes");
              Call.g_signal_connect c "value-changed"
                (Closure.generic_combobox_bool_callback (p + offset h))]
             ++ tail
     | Enum h values =>
         l = [Call.dt_bauhaus_combobox_new c self;
              Call.dt_bauhaus_widget_set_label (Some c) (gettext w (description h))]
             ++ map (fun t =>
                       Call.dt_bauhaus_combobox_add_full c
                         (gettext w (Tuple.description t))
                         DT_BAUHAUS_COMBOBOX_ALIGN_RIGHT (Tuple.value t) true)
                  (match values with Some v => enum_table v | None => [] end)
             ++ [Call.g_signal_connect c "value-changed"
                   (Closure.generic_combobox_enum_callback (p + offset h))]
             ++ tail
     | _ => True
     end
  /\ forall (w1 : world) (combobox : GtkWidget) (field : Z),
       reset w1 = 0 ->
       incoming w1 combobox (Closure.generic_combobox_enum_callback field)
         = int_value match combobox_data w1 combobox with
                     | Some d => d
                     | None => combobox_selected w1 combobox
                     end
       /\ heap (written w1 combobox (Closure.generic_combobox_enum_callback field)) field
          = wrap32 match combobox_data w1 combobox with
                   | Some d => d
                   | None => combobox_selected w1 combobox
                   end
       /\ (exec (emit combobox (Closure.generic_combobox_enum_callback field)) w1
             = written w1 combobox (Closure.generic_combobox_enum_callback field)
           \/ exec (emit combobox (Closure.generic_combobox_enum_callback field)) w1
             = reported w1 combobox (Closure.generic_combobox_enum_callback field)).
Proof.
  intros Hf; cbv zeta.
  destruct (binder_new_calls self (bind_choice_list param) w) as [Hr Hl].
  cbn [run_binder binder_calls fst snd fresh_after] in Hr, Hl. rewrite Hr, Hl.
  unfold combobox_calls. rewrite Hf. split; [reflexivity|]. split.
  - destruct f; try exact I.
    + reflexivity.
    + cbn [app]. rewrite <- app_assoc. reflexivity.
  - intros w1 combobox field Hr1. repeat split.
    + destruct w1; cbv [written set_heap heap field_of cell_of incoming].
      apply upd_same.
    + unfold exec. rewrite (emit_run _ _ _ Hr1). cbn [snd].
      destruct (differs _ _); [right|left]; reflexivity.
Qed.

Lemma choice_list_population_witness :
  new_calls Sample.w0 (exec (dt_bauhaus_combobox_from_params 0%nat "mode") Sample.w0)
  = [Call.dt_bauhaus_combobox_new 1%positive 0%nat;
     Call.dt_bauhaus_widget_set_label (Some 1%positive) "mode";
     Call.dt_bauhaus_combobox_add_full 1%positive "linear"
       DT_BAUHAUS_COMBOBOX_ALIGN_RIGHT 10 true;
     Call.dt_bauhaus_combobox_add_full 1%positive "logarithmic"
       DT_BAUHAUS_COMBOBOX_ALIGN_RIGHT 20 true;
     Call.g_signal_connect 1%positive "value-changed"
       (Closure.generic_combobox_enum_callback 4108);
     Call.gtk_box_new 2%positive GTK_ORIENTATION_VERTICAL DT_BAUHAUS_SPACE;
     Call.gtk_box_pack_start 2%positive (Some 1%positive)].
Proof.
  destruct (choice_list_population Sample.w0 0%nat "mode"
              (Enum (Sample.hdr "mode" 12) (Some Sample.mode_values)) eq_refl)
    as (_ & H & _).
  exact H.
Defined.

(** ** The rule in exact arithmetic *)

Module ExactFacts.
Import Exact.
Local Open Scope R_scope.

Lemma Rleb_true (a b : R) : a <= b -> Rleb a b = true.
Proof. intros H; unfold Rleb; destruct (Rle_dec a b); [reflexivity | contradiction]. Qed.

Lemma Rleb_false (a b : R) : b < a -> Rleb a b = false.
Proof. intros H; unfold Rleb; destruct (Rle_dec a b); [lra | reflexivity]. Qed.

Lemma Rltb_true (a b : R) : a < b -> Rltb a b = true.
Proof. intros H; unfold Rltb; destruct (Rlt_dec a b); [reflexivity | contradiction]. Qed.

Lemma Rltb_false (a b : R) : b <= a -> Rltb a b = false.
Proof. intros H; unfold Rltb; destruct (Rlt_dec a b); [lra | reflexivity]. Qed.

Lemma Rfloor_eq (x : R) (z : Z) : IZR z <= x < IZR z + 1 -> Rfloor x = z.
Proof. intros [H1 H2]; unfold Rfloor; symmetry; apply Int_part_spec; lra. Qed.

Lemma ln_10_pos : 0 < ln 10.
Proof. rewrite <- ln_1. apply ln_increasing; lra. Qed.

Lemma div_ln_10_bounds (a lo hi : R) :
  lo * ln 10 < a -> a < hi * ln 10 -> lo < a / ln 10 < hi.
Proof.
  intros H1 H2. pose proof ln_10_pos as Hp.
  split; apply Rmult_lt_reg_r with (ln 10); try assumption;
    unfold Rdiv; rewrite Rmult_assoc, Rinv_l by lra; lra.
Qed.

(** [2 ln 2 < ln 10 < 10 ln 2], from [4 < 10 < 1024]. *)
Lemma ln_2_ln_10 : 2 * ln 2 < ln 10 /\ ln 10 < 10 * ln 2.
Proof.
  split.
  - replace (2 * ln 2) with (ln (2 * 2)) by (rewrite ln_mult; lra).
    apply ln_increasing; lra.
  - replace (10 * ln 2) with (ln (2 ^ 10)) by (rewrite ln_pow by lra; simpl; lra).
    apply ln_increasing; lra.
Qed.

(** [-1/2 < log10(1/2) < -1/10]. *)
Lemma log10_half : -1 / 2 < log10 (50 / 100) < -1 / 10.
Proof.
  unfold log10. replace (50 / 100) with (/ 2) by lra.
  rewrite ln_Rinv by lra. destruct ln_2_ln_10 as [H1 H2].
  apply div_ln_10_bounds; lra.
Qed.

(** [-1/10 < log10(9/10) < 0], from [1/10 < (9/10)^10] and [9/10 < 1]. *)
Lemma log10_nine_tenths : -1 / 10 < log10 (90 / 100) < 0.
Proof.
  unfold log10. apply div_ln_10_bounds.
  - assert (H : ln (/ 10) < ln ((90 / 100) ^ 10)) by (apply ln_increasing; lra).
    rewrite ln_Rinv, ln_pow in H by lra. simpl INR in H. lra.
  - rewrite Rmult_0_l, <- ln_1. apply ln_increasing; lra.
Qed.

Lemma Rpower_10_0 : Rpower 10 0 = 1.
Proof. apply Rpower_O; lra. Qed.

Lemma Rpower_10_m1 : Rpower 10 (-1) = / 10.
Proof.
  replace (-1) with (- (1)) by lra.
  rewrite Rpower_Ropp, Rpower_1 by lra. reflexivity.
Qed.

Lemma top_50 : Rmin (50 - -50) (Rmax (Rabs (-50)) (Rabs 50)) = 50.
Proof.
  rewrite (Rabs_left (-50)), (Rabs_right 50) by lra.
  rewrite Rmax_left, Rmin_right by lra. lra.
Qed.

Lemma top_90 : Rmin (90 - 0) (Rmax (Rabs 0) (Rabs 90)) = 90.
Proof.
  rewrite Rabs_R0, (Rabs_right 90) by lra.
  rewrite Rmax_right, Rmin_left by lra. lra.
Qed.

Ltac unfold_exact :=
  cbv [slider_step_digits spec_step_digits amended_step_digits range_top
       top_at_least_100 arith
       of_int to_int fsub fmul fdiv fneg flt fle fabsf fminf fmaxf floorf
       log10f powf add_tenth gt_half].

(** The source on the range [-50, 50]: step 1/2, 2 digits. *)
Lemma exact_shift :
  slider_step_digits (A := arith) (-50) 50 = (1 / 2, 2%Z).
Proof.
  pose proof log10_half as [H1 H2].
  unfold_exact. rewrite top_50, Rleb_false by lra.
  assert (He : Rfloor (log10 (50 / 100) + 1 / 10) = (-1)%Z)
    by (apply Rfloor_eq; lra).
  rewrite He, Rpower_10_m1, Rltb_true, Rltb_false by lra.
  f_equal; lra.
Qed.

(** The source on the range [0, 90]: step 1, 2 digits. *)
Lemma exact_gain_source :
  slider_step_digits (A := arith) 0 90 = (1, 2%Z).
Proof.
  pose proof log10_nine_tenths as [H1 H2].
  unfold_exact. rewrite top_90, Rleb_false by lra.
  assert (He : Rfloor (log10 (90 / 100) + 1 / 10) = 0%Z)
    by (apply Rfloor_eq; lra).
  rewrite He, Rpower_10_0, Rltb_false, Rltb_false by lra.
  reflexivity.
Qed.

(** The rule of the specification on the range [0, 90]: step 1/2. *)
Lemma exact_gain_spec :
  spec_step_digits (A := arith) 0 90 = (1 / 2, 2%Z).
Proof.
  pose proof log10_nine_tenths as [H1 H2].
  unfold_exact. rewrite top_90, Rleb_false by lra.
  assert (He : Rfloor (log10 (90 / 100)) = (-1)%Z)
    by (apply Rfloor_eq; lra).
  rewrite He, Rpower_10_m1, Rltb_true, Rltb_false by lra.
  f_equal; lra.
Qed.

End ExactFacts.

(** ** The step of a float slider: where the specification differs *)

(** C4, as stated, fails.  On the range [0, 90], [top/100] is 9/10 and its
    logarithm lies in [-1/10, 0): the source adds a tenth before the floor,
    finds the exponent 0 and the step 1, whereas the rule of the
    specification finds the exponent -1 and the step 1/2.  This holds in
    exact arithmetic, and in binary32 on the sample world, where the binder
    constructs the slider of "gain" with step 1.0f while the rule of the
    specification gives 0.5f. *)
Lemma spec_rule_counterexample :
  slider_step_digits (A := Exact.arith) 0%R 90%R = (1%R, 2)
  /\ spec_step_digits (A := Exact.arith) 0%R 90%R = ((1 / 2)%R, 2)
  /\ slider_step_digits (A := Exact.arith) 0%R 90%R
     <> spec_step_digits (A := Exact.arith) 0%R 90%R
  /\ hd_error (new_calls Sample.w0
                 (exec (dt_bauhaus_slider_from_params 0%nat "gain") Sample.w0))
     = Some (Call.dt_bauhaus_slider_new_with_range_and_feedback 1%positive 0%nat
               (IEEE32.of_Z 0) (IEEE32.of_Z 90) 0x3f800000 0 2 1)
  /\ spec_step_digits (A := Sample.arith) (IEEE32.of_Z 0) (IEEE32.of_Z 90)
     = (0x3f000000, 2).
Proof.
  split; [exact ExactFacts.exact_gain_source|].
  split; [exact ExactFacts.exact_gain_spec|].
  split.
  - rewrite ExactFacts.exact_gain_source, ExactFacts.exact_gain_spec.
    intros H. injection H as H. lra.
  - split; vm_compute; reflexivity.
Qed.

(** C7, as stated, fails.  The range [-50, 50] has [max - min = 100], yet
    [top] is 50 and the step is 1/2: in exact arithmetic, and in binary32 on
    the sample world, where the binder constructs the slider of "shift"
    with step 0.5f. *)
Lemma wide_range_step_counterexample :
  Exact.Rleb 100%R (50 - -50)%R = true
  /\ fst (slider_step_digits (A := Exact.arith) (-50)%R 50%R) <> 1%R
  /\ fle (FloatArith := Sample.arith) (IEEE32.of_Z 100)
       (fsub (FloatArith := Sample.arith) (IEEE32.of_Z 50) (IEEE32.of_Z (-50))) = true
  /\ hd_error (new_calls Sample.w0
                 (exec (dt_bauhaus_slider_from_params 0%nat "shift") Sample.w0))
     = Some (Call.dt_bauhaus_slider_new_with_range_and_feedback 1%positive 0%nat
               (IEEE32.of_Z (-50)) (IEEE32.of_Z 50) 0x3f000000 0 2 1)
  /\ 0x3f000000 <> IEEE32.of_Z 1.
Proof.
  split; [apply ExactFacts.Rleb_true; lra|].
  split; [rewrite ExactFacts.exact_shift; cbn [fst]; lra|].
  repeat split; try (vm_compute; reflexivity).
  vm_compute; discriminate.
Qed.

(** ** Checks of the model on the examples of the specification *)

(** A float field over [0, 1]: step 0.01f, 2 digits, no format. *)
Example opacity_slider :
  new_calls Sample.w0 (exec (dt_bauhaus_slider_from_params 0%nat "opacity") Sample.w0)
  = [Call.dt_bauhaus_slider_new_with_range_and_feedback 1%positive 0%nat
       (IEEE32.of_Z 0) (IEEE32.of_Z 1) 0x3c23d70a 0 2 1;
     Call.g_signal_connect 1%positive "value-changed"
       (Closure.generic_slider_float_callback 4124);
     Call.dt_bauhaus_widget_set_label (Some 1%positive) "opacity";
     Call.gtk_box_new 2%positive GTK_ORIENTATION_VERTICAL DT_BAUHAUS_SPACE;
     Call.gtk_box_pack_start 2%positive (Some 1%positive)].
Proof. vm_compute; reflexivity. Qed.

(** A float field over [-180, 180]: step 1, 2 digits, a signed format. *)
Example angle_slider :
  new_calls Sample.w0 (exec (dt_bauhaus_slider_from_params 0%nat "angle") Sample.w0)
  = [Call.dt_bauhaus_slider_new_with_range_and_feedback 1%positive 0%nat
       (IEEE32.of_Z (-180)) (IEEE32.of_Z 180) (IEEE32.of_Z 1) 0x3f800000 2 1;
     Call.dt_bauhaus_slider_set_format 1%positive "%+.02f";
     Call.g_signal_connect 1%positive "value-changed"
       (Closure.generic_slider_float_callback 4096);
     Call.dt_bauhaus_widget_set_label (Some 1%positive) "angle";
     Call.gtk_box_new 2%positive GTK_ORIENTATION_VERTICAL DT_BAUHAUS_SPACE;
     Call.gtk_box_pack_start 2%positive (Some 1%positive)].
Proof. vm_compute; reflexivity. Qed.

(** A boolean combobox: selecting "yes" (index 1, no data) sets the field
    to 1 and adds a history item. *)
Example select_yes :
  let w := exec (emit 7%positive (Closure.generic_combobox_bool_callback 4104)) Sample.w0 in
  heap w 4104 = 1
  /\ new_calls Sample.w0 w
     = [Call.gui_changed 0%nat 7%positive (previous_int 0);
        Call.dt_iop_color_picker_reset 0%nat true;
        Call.dt_dev_add_history_item 0%nat true].
Proof. split; vm_compute; reflexivity. Qed.

(** Writing -0.0f over +0.0f: the value is equal under [==], the field
    changes, nothing is reported. *)
Example negative_zero_is_written_silently :
  IEEE32.fne 0x80000000 0 = false
  /\ differs (float_value 0x80000000) (previous_float 0) = false.
Proof. split; vm_compute; reflexivity. Qed.

(** The binary32 model on a few values: 1.0f, 1.0f/100, floorf(-1.5f),
    -2.0f + .1 and (int)-2.3f. *)
Example binary32_checks :
  IEEE32.of_Z 1 = 0x3f800000
  /\ IEEE32.decode 0x3f800000 = S754_finite false 8388608 (-23)
  /\ IEEE32.lift2 (SFdiv 24 128) (IEEE32.of_Z 1) (IEEE32.of_Z 100) = 0x3c23d70a
  /\ IEEE32.lift1 IEEE32.SFfloor 0xbfc00000 = IEEE32.of_Z (-2)
  /\ IEEE32.lift1 IEEE32.SFadd_tenth (IEEE32.of_Z (-2)) = 0xbff33333
  /\ IEEE32.to_Z 0xc0133333 = -2.
Proof. repeat split; vm_compute; reflexivity. Qed.

(** * Further properties *)

(** ** What the binders leave alone *)

Lemma same_surroundings_refl (w : world) : same_surroundings w w.
Proof. repeat split. Qed.

Lemma same_surroundings_trans (w1 w2 w3 : world) :
  same_surroundings w1 w2 -> same_surroundings w2 w3 -> same_surroundings w1 w3.
Proof.
  unfold same_surroundings.
  intros (A1 & A2 & A3 & A4 & A5 & A6 & A7 & A8 & A9)
         (B1 & B2 & B3 & B4 & B5 & B6 & B7 & B8 & B9).
  repeat split; congruence.
Qed.

Lemma attached_logged_frame (self : mod_id) (r : option GtkWidget)
    (body : list Call.t) (fresh : GtkWidget) (w : world) :
  let w' := attached self r (logged body fresh w) in
  same_surroundings w w'
  /\ (forall m, same_module_data (modules w m) (modules w' m)).
Proof.
  destruct w as [hp ms rs sv cd cs ta bm gt l10 pw nw cl].
  run_binder_prog.
  destruct (widget (ms self)) as [box|] eqn:Hw; run_binder_prog;
    (split; [repeat split|]); intros m; unfold same_module_data;
    try (repeat split; reflexivity).
  unfold upd_module. destruct (Nat.eqb m self) eqn:Hm.
  - apply Nat.eqb_eq in Hm. subst m. repeat split.
  - repeat split.
Qed.

Lemma run_binder_frame (self : mod_id) (c : binder_call) (w : world) :
  let w' := exec (run_binder self c) w in
  same_surroundings w w'
  /\ (forall m, same_module_data (modules w m) (modules w' m))
  /\ (forall m, m <> self -> modules w' m = modules w m).
Proof.
  cbv zeta. unfold exec. rewrite run_binder_run. cbn [snd].
  destruct (attached_logged_frame self (fst (binder_calls w self c))
              (snd (binder_calls w self c))
              (fresh_after w (fst (binder_calls w self c))) w) as [H1 H2].
  destruct (attached_logged self (fst (binder_calls w self c))
              (snd (binder_calls w self c))
              (fresh_after w (fst (binder_calls w self c))) w)
    as (_ & _ & _ & _ & H3).
  auto.
Qed.

Lemma binders_keep_modules_lemma (self : mod_id) (cs : list binder_call) (w : world) :
  let w' := exec (run_binders self cs) w in
  same_surroundings w w'
  /\ (forall m, same_module_data (modules w m) (modules w' m))
  /\ (forall m, m <> self -> modules w' m = modules w m).
Proof.
  revert w. induction cs as [|c cs IH]; intros w; cbv zeta.
  - cbv [run_binders exec ret snd]. repeat split.
  - destruct (run_binders_cons self c cs w) as [_ ->].
    destruct (run_binder_frame self c w) as (A1 & A2 & A3).
    destruct (IH (exec (run_binder self c) w)) as (B1 & B2 & B3).
    split; [eapply same_surroundings_trans; eassumption|]. split.
    + intros m. destruct (A2 m) as (a1 & a2 & a3), (B2 m) as (b1 & b2 & b3).
      unfold same_module_data. repeat split; congruence.
    + intros m Hm. rewrite (B3 m Hm). apply A3, Hm.
Qed.


(** ** Unknown parameters and the controls the binders return *)

(** X2.  A parameter that cannot be bound (a name the module does not declare,
    or, for the choice-list and toggle binders, a field of a kind they do
    not take): the binder returns a fresh control labelled with its own
    message, which quotes the name, connects no callback and still packs
    the control into the container. *)
Theorem placeholder_for_unbindable_parameter (self : mod_id) (c : binder_call)
    (w : world) :
  unbindable w self c = true ->
  let s := next_widget w in
  let l := new_calls w (exec (run_binder self c) w) in
  eval (run_binder self c) w = Some s
  /\ l = match c with
         | bind_slider param =>
             [Call.dt_bauhaus_slider_new s self;
              Call.dt_bauhaus_widget_set_label (Some s)
                ("'" ++ param ++ "' is not a float/int/slider parameter")%string]
         | bind_choice_list param =>
             [Call.dt_bauhaus_combobox_new s self;
              Call.dt_bauhaus_widget_set_label (Some s)
                ("'" ++ param ++ "' is not an enum/int/bool/combobox parameter")%string]
         | bind_toggle param =>
             [Call.gtk_check_button_new_with_label s
                ("'" ++ param ++ "' is not a bool/togglebutton parameter")%string]
         end ++ attach_calls (widget (modules w self)) (Pos.succ s) (Some s)
  /\ filter is_connect l = [].
Proof.
  intros Hu; cbv zeta.
  destruct (binder_new_calls self c w) as [Hr Hl]. rewrite Hr, Hl.
  unfold unbindable in Hu.
  destruct c as [param|param|param]; cbn [param_of] in Hu;
    cbv [binder_calls slider_calls combobox_calls toggle_calls];
    destruct (get_f (so (modules w self)) param) as [f|]; try discriminate Hu;
    try (destruct f; try discriminate Hu);
    cbn [fst snd fresh_after app];
    destruct (widget (modules w self)); repeat split; reflexivity.
Qed.

Lemma placeholder_for_unbindable_parameter_witness :
  eval (run_binder 0%nat (bind_toggle "angle")) Sample.w0 = Some 1%positive.
Proof.
  destruct (placeholder_for_unbindable_parameter 0%nat (bind_toggle "angle")
              Sample.w0 eq_refl) as [H _].
  exact H.
Defined.

(** X3.  The only binder call that returns NULL is the slider binder on a
    parameter that exists and is neither float nor int. *)
Theorem binder_returns_null_iff (self : mod_id) (c : binder_call) (w : world) :
  eval (run_binder self c) w = None
  <-> exists param f,
        c = bind_slider param
        /\ get_f (so (modules w self)) param = Some f
        /\ type f <> DT_INTROSPECTION_TYPE_FLOAT
        /\ type f <> DT_INTROSPECTION_TYPE_INT.
Proof.
  destruct (binder_new_calls self c w) as [Hr _]. rewrite Hr. split.
  - destruct c as [param|param|param]; cbn [binder_calls fst]; try discriminate.
    unfold slider_calls.
    destruct (get_f (so (modules w self)) param) as [f|] eqn:Hf; [|discriminate].
    intros H. exists param, f.
    destruct f; cbv beta iota zeta delta [fst] in H; try discriminate H;
      repeat split; try reflexivity; try assumption; cbn [type]; discriminate.
  - intros (param & f & -> & Hf & Hfl & Hin). cbn [binder_calls].
    unfold slider_calls. rewrite Hf.
    destruct f; try reflexivity; [now elim Hfl | now elim Hin].
Qed.

(** ** The callbacks a binder connects *)

Lemma binder_connections (w : world) (self : mod_id) (c : binder_call) :
  let p := params (modules w self) in
  let s := next_widget w in
  filter is_connect (new_calls w (exec (run_binder self c) w))
  = match c, get_f (so (modules w self)) (param_of c) with
    | bind_slider _, Some (Float h _ _) =>
        [Call.g_signal_connect s "value-changed"
           (Closure.generic_slider_float_callback (p + offset h))]
    | bind_slider _, Some (Int h _ _) =>
        [Call.g_signal_connect s "value-changed"
           (Closure.generic_slider_int_callback (p + offset h))]
    | bind_choice_list _, Some (Bool h) =>
        [Call.g_signal_connect s "value-changed"
           (Closure.generic_combobox_bool_callback (p + offset h))]
    | bind_choice_list _, Some (Enum h _)
    | bind_choice_list _, Some (Int h _ _)
    | bind_choice_list _, Some (UInt h _ _) =>
        [Call.g_signal_connect s "value-changed"
           (Closure.generic_combobox_enum_callback (p + offset h))]
    | bind_toggle _, Some (Bool h) =>
        [Call.g_signal_connect_data_g_free s "toggled"
           (Closure.generic_toggle_callback self (p + offset h))]
    | _, _ => []
    end.
Proof.
  cbv zeta. destruct (binder_new_calls self c w) as [_ Hl]. rewrite Hl.
  rewrite filter_app.
  assert (Ha : forall e n r, filter is_connect (attach_calls e n r) = [])
    by (intros [e|] n r; reflexivity).
  rewrite Ha, app_nil_r.
  destruct c as [param|param|param]; cbn [param_of];
    cbv [binder_calls slider_calls combobox_calls toggle_calls snd];
    destruct (get_f (so (modules w self)) param)
      as [[h min max|h min max|h min max|h|h values|h]|];
    try reflexivity.
  - destruct (negative_min min); reflexivity.
  - cbn [filter is_connect]. rewrite filter_app, enum_choices_quiet by reflexivity.
    reflexivity.
Qed.

(** X4.  A binder call connects at most one callback, on the control it
    returns, and only one that reads the field at its declared kind: the
    closure is bound to the address [params + offset] of the named field,
    the float callback only to a float field, the int slider callback only
    to an int field, the enum callback to an enum, int or unsigned field,
    the boolean and toggle callbacks only to a boolean field, and the toggle
    closure carries the module the binder was called on. *)
Theorem connected_callback_fits_field (self : mod_id) (c : binder_call) (w : world) :
  let l := filter is_connect (new_calls w (exec (run_binder self c) w)) in
  (List.length l <= 1)%nat
  /\ forall cl, In cl l ->
       exists f h,
         get_f (so (modules w self)) (param_of c) = Some f
         /\ closure_of cl = Some h
         /\ (cl = Call.g_signal_connect (next_widget w) "value-changed" h
             \/ cl = Call.g_signal_connect_data_g_free (next_widget w) "toggled" h)
         /\ eval (run_binder self c) w = Some (next_widget w)
         /\ field_of h = params (modules w self) + offset (header f)
         /\ handler_fits h (type f) = true
         /\ target w (next_widget w) h
            = match h with
              | Closure.generic_toggle_callback _ _ => self
              | _ => bauhaus_module w (next_widget w)
              end.
Proof.
  cbv zeta. rewrite binder_connections.
  destruct (binder_new_calls self c w) as [Hr _]. rewrite Hr.
  destruct c as [param|param|param]; cbn [param_of binder_calls fst];
    unfold slider_calls;
    destruct (get_f (so (modules w self)) param)
      as [[h min max|h min max|h min max|h|h values|h]|];
    cbn [List.length In fst]; (split; [lia|]); intros cl Hin;
    try contradiction; destruct Hin as [<-|[]];
    eexists; eexists; (split; [reflexivity|]);
    repeat split; auto.
Qed.

Lemma connected_callback_fits_field_witness :
  exists f h,
    get_f (so (modules Sample.w0 0%nat)) "enabled" = Some f
    /\ closure_of (Call.g_signal_connect_data_g_free 1%positive "toggled"
                     (Closure.generic_toggle_callback 0%nat 4104)) = Some h
    /\ field_of h = params (modules Sample.w0 0%nat) + offset (header f)
    /\ handler_fits h (type f) = true.
Proof.
  destruct (connected_callback_fits_field 0%nat (bind_toggle "enabled") Sample.w0)
    as [_ H].
  destruct (H (Call.g_signal_connect_data_g_free 1%positive "toggled"
                 (Closure.generic_toggle_callback 0%nat 4104)))
    as (f & h & H1 & H2 & _ & _ & H3 & H4 & _).
  - vm_compute. left. reflexivity.
  - exists f, h. auto.
Defined.

(** ** The slider of a float field *)

(** X5.  On a float field the slider binder makes, in this order: the slider
    over the declared range, with the derived step and digits and with the
    4 bytes that [get_p] points to as default; the format ["%+.0Nf"], [N]
    the digits, exactly when the declared minimum is negative; the
    connection of the float callback to [params + offset]; the translated
    description as label; and the packing into the container. *)
Theorem float_slider_calls (w : world) (self : mod_id) (param : string)
    (h : dt_introspection_type_header_t) (min max : float) :
  get_f (so (modules w self)) param = Some (Float h min max) ->
  let s := next_widget w in
  let p := params (modules w self) in
  let sd := slider_step_digits (A := arith_of w) min max in
  eval (dt_bauhaus_slider_from_params self param) w = Some s
  /\ new_calls w (exec (dt_bauhaus_slider_from_params self param) w)
     = [Call.dt_bauhaus_slider_new_with_range_and_feedback s self min max
          (fst sd) (heap w (get_p (so (modules w self)) p param)) (snd sd) 1]
       ++ (if negative_min min
           then [Call.dt_bauhaus_slider_set_format s
                   ("%+.0" ++ decimal (snd sd) ++ "f")%string]
           else [])
       ++ [Call.g_signal_connect s "value-changed"
             (Closure.generic_slider_float_callback (p + offset h));
           Call.dt_bauhaus_widget_set_label (Some s) (gettext w (description h))]
       ++ attach_calls (widget (modules w self)) (Pos.succ s) (Some s).
Proof.
  intros Hf; cbv zeta.
  destruct (binder_new_calls self (bind_slider param) w) as [Hr Hl].
  cbn [run_binder binder_calls] in Hr, Hl. rewrite Hr, Hl.
  unfold slider_calls. rewrite Hf. cbn [fst snd fresh_after].
  split; [reflexivity|].
  destruct (negative_min min); rewrite <- ?app_assoc; reflexivity.
Qed.

Lemma float_slider_calls_witness :
  eval (dt_bauhaus_slider_from_params 0%nat "angle") Sample.w0 = Some 1%positive.
Proof.
  destruct (float_slider_calls Sample.w0 0%nat "angle" (Sample.hdr "angle" 0)
              (IEEE32.of_Z (-180)) (IEEE32.of_Z 180) eq_refl) as [H _].
  exact H.
Defined.

(** X6.  On an int field the slider binder makes the slider over the declared
    range converted to [float], with step 1, no digits and no format,
    connects the int callback to [params + offset] and labels the slider
    with the translated description.  The default is the field read through
    a [float] pointer and truncated: for a field that holds
    [0 <= n < 2^23] it is 0. *)
Theorem int_slider_log (w : world) (self : mod_id) (param : string)
    (h : dt_introspection_type_header_t) (min max : Z) :
  get_f (so (modules w self)) param = Some (Int h min max) ->
  let s := next_widget w in
  let p := params (modules w self) in
  let raw := heap w (get_p (so (modules w self)) p param) in
  eval (dt_bauhaus_slider_from_params self param) w = Some s
  /\ new_calls w (exec (dt_bauhaus_slider_from_params self param) w)
     = [Call.dt_bauhaus_slider_new_with_range_and_feedback s self
          (IEEE32.of_Z min) (IEEE32.of_Z max) (IEEE32.of_Z 1)
          (IEEE32.of_Z (IEEE32.to_Z raw)) 0 1;
        Call.g_signal_connect s "value-changed"
          (Closure.generic_slider_int_callback (p + offset h));
        Call.dt_bauhaus_widget_set_label (Some s) (gettext w (description h))]
       ++ attach_calls (widget (modules w self)) (Pos.succ s) (Some s)
  /\ (0 <= raw < 2 ^ 23 -> IEEE32.of_Z (IEEE32.to_Z raw) = IEEE32.of_Z 0).
Proof.
  intros Hf; cbv zeta.
  destruct (binder_new_calls self (bind_slider param) w) as [Hr Hl].
  cbn [run_binder binder_calls] in Hr, Hl. rewrite Hr, Hl.
  unfold slider_calls. rewrite Hf. cbn [fst snd fresh_after].
  split; [reflexivity|]. split; [reflexivity|].
  intros Hraw. now rewrite small_int_reads_as_zero.
Qed.

Lemma int_slider_log_witness :
  eval (dt_bauhaus_slider_from_params 0%nat "iterations") Sample.w0 = Some 1%positive.
Proof.
  destruct (int_slider_log Sample.w0 0%nat "iterations" (Sample.hdr "iterations" 4)
              0 10 eq_refl) as [H _].
  exact H.
Defined.

(** ** Choice lists *)

(** X7.  On an integer or unsigned field the choice-list binder adds no choice
    at all: it labels the combobox with the translated description and
    connects the enum callback to the field, nothing more. *)
Theorem integer_choice_list_is_empty (w : world) (self : mod_id) (param : string)
    (f : dt_introspection_field_t) :
  get_f (so (modules w self)) param = Some f ->
  type f = DT_INTROSPECTION_TYPE_INT \/ type f = DT_INTROSPECTION_TYPE_UINT ->
  let c := next_widget w in
  let l := new_calls w (exec (dt_bauhaus_combobox_from_params self param) w) in
  l = [Call.dt_bauhaus_combobox_new c self;
       Call.dt_bauhaus_widget_set_label (Some c) (gettext w (description (header f)));
       Call.g_signal_connect c "value-changed"
         (Closure.generic_combobox_enum_callback
            (params (modules w self) + offset (header f)))]
      ++ attach_calls (widget (modules w self)) (Pos.succ c) (Some c)
  /\ filter is_choice l = [].
Proof.
  intros Hf Ht; cbv zeta.
  destruct (binder_new_calls self (bind_choice_list param) w) as [_ Hl].
  cbn [run_binder binder_calls fst snd fresh_after] in Hl. rewrite Hl.
  unfold combobox_calls. rewrite Hf.
  destruct f; destruct Ht as [Ht|Ht]; try discriminate Ht;
    destruct (widget (modules w self)); split; reflexivity.
Qed.

Lemma integer_choice_list_is_empty_witness :
  filter is_choice
    (new_calls Sample.w0
       (exec (dt_bauhaus_combobox_from_params 0%nat "iterations") Sample.w0)) = [].
Proof.
  destruct (integer_choice_list_is_empty Sample.w0 0%nat "iterations"
              (Int (Sample.hdr "iterations" 4) 0 10) eq_refl (or_introl eq_refl))
    as [_ H].
  exact H.
Defined.

Lemma enum_table_stops (rows rest : list Tuple.dt_introspection_type_enum_tuple_t)
    (stop : Tuple.dt_introspection_type_enum_tuple_t) :
  (forall t, In t rows -> Tuple.name t <> None) ->
  Tuple.name stop = None ->
  enum_table (rows ++ stop :: rest) = rows.
Proof.
  intros Hrows Hstop. induction rows as [|t rows IH]; cbn [app enum_table].
  - now rewrite Hstop.
  - destruct (Tuple.name t) eqn:Hn.
    + f_equal. apply IH. intros t' Ht'. apply Hrows. now right.
    + exfalso. apply (Hrows t); [now left | exact Hn].
Qed.

(** X8.  The choices of an enumeration stop at the first row without a name:
    when the table is [rows], then a row whose name is NULL, then anything,
    the combobox gets exactly one choice per row of [rows], in order, and
    nothing of what follows the NULL row.  A NULL table gives no choice. *)
Theorem enum_choices_stop_at_null_name (w : world) (self : mod_id) (param : string)
    (h : dt_introspection_type_header_t)
    (rows rest : list Tuple.dt_introspection_type_enum_tuple_t)
    (stop : Tuple.dt_introspection_type_enum_tuple_t) :
  (forall t, In t rows -> Tuple.name t <> None) ->
  Tuple.name stop = None ->
  (get_f (so (modules w self)) param = Some (Enum h (Some (rows ++ stop :: rest))) ->
   filter is_choice
     (new_calls w (exec (dt_bauhaus_combobox_from_params self param) w))
   = map (enum_choice w (next_widget w)) rows)
  /\ (get_f (so (modules w self)) param = Some (Enum h None) ->
      filter is_choice
        (new_calls w (exec (dt_bauhaus_combobox_from_params self param) w)) = []).
Proof.
  intros Hrows Hstop.
  destruct (binder_new_calls self (bind_choice_list param) w) as [_ Hl].
  cbn [run_binder binder_calls fst snd fresh_after] in Hl. rewrite Hl.
  assert (Ha : forall e n r, filter is_choice (attach_calls e n r) = [])
    by (intros [e|] n r; reflexivity).
  assert (Hc : forall l, filter is_choice (map (enum_choice w (next_widget w)) l)
                         = map (enum_choice w (next_widget w)) l).
  { induction l as [|t l IH]; cbn; [reflexivity | now rewrite IH]. }
  split; intros Hf; rewrite filter_app, Ha, app_nil_r;
    unfold combobox_calls; rewrite Hf; cbn [filter is_choice].
  - rewrite filter_app, Hc, (enum_table_stops _ _ _ Hrows Hstop).
    cbn [filter is_choice]. apply app_nil_r.
  - reflexivity.
Qed.

Lemma enum_choices_stop_at_null_name_witness :
  filter is_choice
    (new_calls Sample.w0 (exec (dt_bauhaus_combobox_from_params 0%nat "mode") Sample.w0))
  = map (enum_choice Sample.w0 1%positive) (firstn 2 Sample.mode_values).
Proof.
  refine (proj1 (enum_choices_stop_at_null_name Sample.w0 0%nat "mode"
                   (Sample.hdr "mode" 12) (firstn 2 Sample.mode_values) []
                   (nth 2 Sample.mode_values
                      {| Tuple.name := None; Tuple.value := 0; Tuple.description := "" |})
                   _ eq_refl) eq_refl).
  intros t [<-|[<-|[]]]; discriminate.
Defined.

(** ** What a callback does to the heap and to the log *)

Lemma new_calls_same (w w' : world) : calls w' = calls w -> new_calls w w' = [].
Proof. intros H. apply new_calls_app. now rewrite app_nil_r. Qed.

Lemma emit_effect (w : world) (widget : GtkWidget) (h : Closure.t) :
  reset w = 0 ->
  let w' := exec (emit widget h) w in
  heap w' = heap_after w widget h
  /\ new_calls w w' = calls_after w widget h
  /\ modules w' = modules w
  /\ next_widget w' = next_widget w
  /\ same_surroundings w w'.
Proof.
  intros Hr; cbv zeta. unfold exec. rewrite (emit_run _ _ _ Hr). cbn [snd].
  unfold heap_after, calls_after, hook_calls.
  destruct (differs (incoming w widget h) (previous_of w h)).
  - set (self := target w widget h). set (data := previous_of w h).
    set (v := cell_of (incoming w widget h)).
    destruct w as [hp ms r sv cd cs ta bm gt l10 pw nw cl].
    cbv [reported written set_heap set_calls heap calls modules next_widget
         same_surroundings reset slider_value combobox_data combobox_selected
         toggle_active bauhaus_module gettext libm_log10f libm_powf].
    fold self data v.
    destruct (gui_changed (ms self)); cbv [heap calls modules next_widget];
      (split; [reflexivity|]);
      (split; [apply new_calls_app; cbv [calls]; rewrite <- ?app_assoc; reflexivity|]);
      repeat split.
  - destruct w as [hp ms r sv cd cs ta bm gt l10 pw nw cl].
    cbv [written set_heap heap calls modules next_widget same_surroundings reset
         slider_value combobox_data combobox_selected toggle_active
         bauhaus_module gettext libm_log10f libm_powf].
    split; [reflexivity|]. split; [apply new_calls_same; reflexivity|].
    repeat split.
Qed.

Lemma emit_under_reset (w : world) (widget : GtkWidget) (h : Closure.t) :
  reset w <> 0 -> exec (emit widget h) w = w.
Proof.
  intros Hr. apply Z.eqb_neq in Hr. unfold exec.
  destruct h; cbv [emit generic_slider_float_callback generic_slider_int_callback
    generic_combobox_enum_callback generic_combobox_bool_callback
    generic_toggle_callback bind gets ret]; now rewrite Hr.
Qed.

(** X9.  When a change is reported to a module with a hook, the hook is called
    first, with the value the field had before the event, and on a
    parameter block whose field already holds the new value; what the hook
    makes of the block is what the callback leaves. *)
Theorem hook_runs_after_the_write (w : world) (widget : GtkWidget) (h : Closure.t)
    (hook : gui_changed_t) :
  reset w = 0 ->
  differs (incoming w widget h) (previous_of w h) = true ->
  gui_changed (modules w (target w widget h)) = Some hook ->
  let w' := exec (emit widget h) w in
  heap w' = hook (target w widget h) widget (previous_of w h)
              (upd (heap w) (field_of h) (cell_of (incoming w widget h)))
  /\ hd_error (new_calls w w')
     = Some (Call.gui_changed (target w widget h) widget (previous_of w h)).
Proof.
  intros Hr Hd Hh; cbv zeta.
  destruct (emit_effect w widget h Hr) as (H1 & H2 & _).
  rewrite H1, H2. unfold heap_after, calls_after, hook_calls. rewrite Hd, Hh.
  split; reflexivity.
Qed.

Lemma hook_runs_after_the_write_witness :
  hd_error (new_calls Sample.w0
              (exec (emit 7%positive (Closure.generic_toggle_callback 0%nat 4104))
                 Sample.w0))
  = Some (Call.gui_changed 0%nat 7%positive (previous_int 0)).
Proof.
  destruct (hook_runs_after_the_write Sample.w0 7%positive
              (Closure.generic_toggle_callback 0%nat 4104) Sample.hook
              eq_refl eq_refl eq_refl) as [_ H].
  exact H.
Defined.

Lemma only_change_calls (l : list Call.t) :
  filter is_change_call l = l ->
  filter (fun c => negb (is_change_call c)) l = [].
Proof.
  induction l as [|c l IH]; cbn [filter]; [reflexivity|].
  destruct (is_change_call c) eqn:Hc; cbn [negb].
  - intros H. injection H as H. auto.
  - intros H. exfalso.
    assert (Hin : In c (filter is_change_call l)) by (rewrite H; now left).
    apply filter_In in Hin. destruct Hin as [_ Hin]. congruence.
Qed.

(** X10.  A callback, under reset or not, creates no widget, changes the
    container, the descriptor and the hook of no module, leaves the reset
    flag and the toolkit as they were, and logs nothing but the hook call,
    the reset of the colour picker and the history item.  When the module
    it reports to has no hook, the only cell of the heap it can change is
    the field it is bound to. *)
Theorem callbacks_touch_only_their_field (w : world) (widget : GtkWidget)
    (h : Closure.t) :
  let w' := exec (emit widget h) w in
  modules w' = modules w
  /\ next_widget w' = next_widget w
  /\ same_surroundings w w'
  /\ filter (fun c => negb (is_change_call c)) (new_calls w w') = []
  /\ (gui_changed (modules w (target w widget h)) = None ->
      forall a, a <> field_of h -> heap w' a = heap w a).
Proof.
  cbv zeta. destruct (Z.eq_dec (reset w) 0) as [Hr|Hr].
  - destruct (emit_effect w widget h Hr) as (H1 & H2 & H3 & H4 & H5).
    rewrite H1, H2. repeat split; try assumption; try apply H5.
    + apply only_change_calls. unfold calls_after, hook_calls.
      destruct (differs _ _); [|reflexivity].
      destruct (gui_changed _); reflexivity.
    + intros Hn a Ha. unfold heap_after. rewrite Hn.
      apply Z.eqb_neq in Ha.
      destruct (differs _ _); unfold upd; now rewrite Ha.
  - rewrite (emit_under_reset _ _ _ Hr).
    repeat split; try reflexivity. now rewrite new_calls_same.
Qed.

Lemma signed32_wrap32 (n : Z) :
  - 2 ^ 31 <= n < 2 ^ 31 -> signed32 (wrap32 n) = n.
Proof.
  intros Hn. unfold signed32, wrap32. rewrite Z.mod_mod by lia.
  destruct (Z_lt_ge_dec n 0) as [Hneg|Hpos].
  - replace (n mod 2 ^ 32) with (n + 2 ^ 32).
    + destruct (n + 2 ^ 32 <? 2 ^ 31) eqn:Hlt; [apply Z.ltb_lt in Hlt; lia | lia].
    + apply Z.mod_unique with (q := -1); lia.
  - rewrite Z.mod_small by lia.
    destruct (n <? 2 ^ 31) eqn:Hlt; [reflexivity | apply Z.ltb_ge in Hlt; lia].
Qed.

(** X11.  After an event on an [int] or [gboolean] field of a module without
    hook, the field reads back as the value the callback took from its
    control (the data of the selected entry, the index, the state of the
    toggle, or the truncated slider value), as long as that value is a
    32-bit integer. *)
Theorem int_field_reads_back (w : world) (widget : GtkWidget) (h : Closure.t)
    (n : Z) :
  reset w = 0 ->
  gui_changed (modules w (target w widget h)) = None ->
  incoming w widget h = int_value n ->
  - 2 ^ 31 <= n < 2 ^ 31 ->
  eval (load_int (field_of h)) (exec (emit widget h) w) = n.
Proof.
  intros Hr Hn Hi Hrange.
  destruct (emit_effect w widget h Hr) as (H1 & _).
  cbv [load_int eval gets fst]. rewrite H1. unfold heap_after.
  rewrite Hn, Hi. cbn [cell_of].
  destruct (differs _ _); rewrite upd_same; now apply signed32_wrap32.
Qed.

Lemma int_field_reads_back_witness :
  eval (load_int 4108)
    (exec (emit 7%positive (Closure.generic_combobox_enum_callback 4108)) Plain.w0)
  = 20.
Proof.
  apply (int_field_reads_back Plain.w0 7%positive
           (Closure.generic_combobox_enum_callback 4108) 20);
    [reflexivity | reflexivity | reflexivity | lia].
Defined.

(** ** Repeated events and NaN *)

Lemma SFeqb_refl (x : spec_float) : x <> S754_nan -> SFeqb x x = true.
Proof.
  intros Hx. unfold SFeqb, SFcompare.
  destruct x as [s|s| |s m e]; try reflexivity.
  - destruct s; reflexivity.
  - now elim Hx.
  - rewrite Z.compare_refl.
    change (Pos.compare_cont Eq m m) with (Pos.compare m m).
    rewrite Pos.compare_refl. destruct s; reflexivity.
Qed.

(** X12.  An event repeated on an unchanged control is silent the second time:
    on a module without hook, once a callback has run, running it again
    while the control still shows the same value logs nothing and leaves
    every cell as it is, provided the value is not a NaN. *)
Theorem repeated_event_is_silent (w : world) (widget : GtkWidget) (h : Closure.t) :
  reset w = 0 ->
  gui_changed (modules w (target w widget h)) = None ->
  match incoming w widget h with
  | float_value x => IEEE32.decode x <> S754_nan
  | int_value _ => True
  end ->
  let w1 := exec (emit widget h) w in
  let w2 := exec (emit widget h) w1 in
  new_calls w1 w2 = []
  /\ forall a, heap w2 a = heap w1 a.
Proof.
  intros Hr Hn Hv; cbv zeta.
  destruct (emit_effect w widget h Hr) as (H1 & _ & H3 & _ & H5).
  set (w1 := exec (emit widget h) w) in *.
  assert (Hr1 : reset w1 = 0) by (destruct H5 as (-> & _); exact Hr).
  destruct (emit_effect w1 widget h Hr1) as (K1 & K2 & _).
  assert (Hin : incoming w1 widget h = incoming w widget h).
  { destruct H5 as (_ & S1 & S2 & S3 & S4 & _).
    unfold incoming. now rewrite S1, S2, S3, S4. }
  assert (Hh : heap w1 = upd (heap w) (field_of h) (cell_of (incoming w widget h))).
  { rewrite H1. unfold heap_after. rewrite Hn. now destruct (differs _ _). }
  assert (Hd : differs (incoming w1 widget h) (previous_of w1 h) = false).
  { rewrite Hin. unfold previous_of. rewrite Hh.
    destruct h as [field|field|field|field|module param];
      cbn [field_of incoming cell_of differs] in *; rewrite upd_same;
      try (now rewrite Z.eqb_refl).
    unfold IEEE32.fne. now rewrite SFeqb_refl. }
  rewrite K1, K2. unfold heap_after, calls_after. rewrite Hd.
  split; [reflexivity|]. intros a. rewrite Hin, Hh.
  unfold upd. destruct (a =? field_of h); reflexivity.
Qed.

Lemma repeated_event_is_silent_witness :
  new_calls
    (exec (emit 7%positive (Closure.generic_toggle_callback 0%nat 4104)) Plain.w0)
    (exec (emit 7%positive (Closure.generic_toggle_callback 0%nat 4104))
       (exec (emit 7%positive (Closure.generic_toggle_callback 0%nat 4104)) Plain.w0))
  = [].
Proof.
  destruct (repeated_event_is_silent Plain.w0 7%positive
              (Closure.generic_toggle_callback 0%nat 4104) eq_refl eq_refl I)
    as [H _].
  exact H.
Defined.

Lemma nan_reports (w : world) (slider : GtkWidget) (field : Z) :
  reset w = 0 ->
  IEEE32.decode (slider_value w slider) = S754_nan ->
  new_calls w (exec (emit slider (Closure.generic_slider_float_callback field)) w)
  = hook_calls w (bauhaus_module w slider) slider (previous_float (heap w field))
    ++ [Call.dt_iop_color_picker_reset (bauhaus_module w slider) true;
        Call.dt_dev_add_history_item (bauhaus_module w slider) true].
Proof.
  intros Hr Hnan.
  destruct (emit_effect w slider (Closure.generic_slider_float_callback field) Hr)
    as (_ & H2 & _).
  rewrite H2. unfold calls_after.
  cbn [incoming previous_of differs target]. unfold IEEE32.fne. rewrite Hnan.
  reflexivity.
Qed.

(** X13.  A slider that shows NaN is reported as changed at every event, also
    when the event is repeated and the field already holds that NaN: each
    event resets the colour picker and adds a history item, because the
    comparison of the float callback is C's [!=]. *)
Theorem nan_is_always_reported (w : world) (slider : GtkWidget) (field : Z) :
  reset w = 0 ->
  IEEE32.decode (slider_value w slider) = S754_nan ->
  let h := Closure.generic_slider_float_callback field in
  let w1 := exec (emit slider h) w in
  let w2 := exec (emit slider h) w1 in
  count is_history (new_calls w w1) = 1%nat
  /\ count is_picker_reset (new_calls w w1) = 1%nat
  /\ count is_history (new_calls w1 w2) = 1%nat
  /\ count is_picker_reset (new_calls w1 w2) = 1%nat.
Proof.
  intros Hr Hnan; cbv zeta.
  destruct (emit_effect w slider (Closure.generic_slider_float_callback field) Hr)
    as (_ & _ & _ & _ & H5).
  set (w1 := exec (emit slider (Closure.generic_slider_float_callback field)) w) in *.
  assert (Hr1 : reset w1 = 0) by (destruct H5 as (-> & _); exact Hr).
  assert (Hnan1 : IEEE32.decode (slider_value w1 slider) = S754_nan)
    by (destruct H5 as (_ & -> & _); exact Hnan).
  unfold w1 at 1 2. rewrite (nan_reports w slider field Hr Hnan).
  rewrite (nan_reports w1 slider field Hr1 Hnan1).
  unfold hook_calls.
  destruct (gui_changed (modules w (bauhaus_module w slider)));
    destruct (gui_changed (modules w1 (bauhaus_module w1 slider)));
    repeat split; reflexivity.
Qed.

Lemma nan_is_always_reported_witness :
  count is_history
    (new_calls Plain.w_nan
       (exec (emit 7%positive (Closure.generic_slider_float_callback 4096))
          Plain.w_nan)) = 1%nat.
Proof.
  destruct (nan_is_always_reported Plain.w_nan 7%positive 4096 eq_refl eq_refl)
    as [H _].
  exact H.
Defined.

(** ** Binding and events together *)

(** X14.  Binder calls do not disturb the callbacks: an event handled after any
    sequence of binder calls writes the same heap and adds the same calls
    as the same event handled before them. *)
Theorem callbacks_commute_with_binders (self : mod_id) (cs : list binder_call)
    (w : world) (widget : GtkWidget) (h : Closure.t) :
  let w1 := exec (run_binders self cs) w in
  heap (exec (emit widget h) w1) = heap (exec (emit widget h) w)
  /\ new_calls w1 (exec (emit widget h) w1) = new_calls w (exec (emit widget h) w).
Proof.
  cbv zeta.
  destruct (run_binders_effect self cs w) as (l & _ & Hh & Hs & _).
  destruct (binders_keep_modules_lemma self cs w) as (S & Hm & _).
  set (w1 := exec (run_binders self cs) w) in *.
  destruct (Z.eq_dec (reset w) 0) as [Hr|Hr].
  - assert (Hr1 : reset w1 = 0) by congruence.
    destruct (emit_effect w widget h Hr) as (A1 & A2 & _).
    destruct (emit_effect w1 widget h Hr1) as (B1 & B2 & _).
    rewrite A1, A2, B1, B2.
    destruct S as (_ & S1 & S2 & S3 & S4 & S5 & _).
    assert (Hin : incoming w1 widget h = incoming w widget h)
      by (unfold incoming; now rewrite S1, S2, S3, S4).
    assert (Hp : previous_of w1 h = previous_of w h)
      by (unfold previous_of; now rewrite Hh).
    assert (Ht : target w1 widget h = target w widget h)
      by (unfold target; now rewrite S5).
    assert (Hg : gui_changed (modules w1 (target w widget h))
                 = gui_changed (modules w (target w widget h)))
      by (destruct (Hm (target w widget h)) as (_ & _ & Hg); exact Hg).
    unfold heap_after, calls_after, hook_calls.
    rewrite Hin, Hp, Ht, Hg, Hh. split; reflexivity.
  - assert (Hr1 : reset w1 <> 0) by congruence.
    rewrite (emit_under_reset _ _ _ Hr), (emit_under_reset _ _ _ Hr1).
    split; [exact Hh|]. now rewrite !new_calls_same.
Qed.
